(** * terraform-provider-firefly: the authenticated transport and the
      sysinfo data source

    The development embeds [internal/provider/provider.go] and
    [internal/provider/sysinfo_data_source.go].  The provider's own functions
    ([fireflyTransport.RoundTrip], [FireflyProvider.Configure],
    [SysInfoDataSource.Configure], [SysInfoDataSource.Read]) are translated
    line by line, in the revision that authenticates with an access token.  The Go packages they call ([strings], [net/url],
    [net/http], [encoding/json] and the plugin framework's [types], [diag]
    and [tfsdk]) are described by executable models placed in modules named
    after the packages. *)

From Stdlib Require Import String Ascii NArith List Bool Lia.
From stdpp Require Import base option gmap strings list.

#[local] Open Scope string_scope.

(** ** Bytes

    A Go [string] is a sequence of bytes; it is a Rocq [string], whose
    characters are the 256 values of [ascii]. *)

Definition code (c : ascii) : N := N_of_ascii c.

Definition between (lo hi c : ascii) : bool :=
  (code lo <=? code c)%N && (code c <=? code hi)%N.

Definition is_lower (c : ascii) : bool := between "a" "z" c.
Definition is_upper (c : ascii) : bool := between "A" "Z" c.
Definition is_digit (c : ascii) : bool := between "0" "9" c.
Definition is_letter (c : ascii) : bool := is_lower c || is_upper c.
Definition is_alnum (c : ascii) : bool := is_letter c || is_digit c.

(** [one_of set c]: the byte [c] is one of the bytes of [set] (a Go
    [switch c { case ... }] over byte constants). *)
Definition one_of (set : string) (c : ascii) : bool :=
  existsb (Ascii.eqb c) (list_ascii_of_string set).

Fixpoint all_bytes (p : ascii -> bool) (s : string) : bool :=
  match s with
  | EmptyString => true
  | String c s' => p c && all_bytes p s'
  end.

Definition other_than (sep c : ascii) : bool := negb (Ascii.eqb c sep).

(** ** Errors

    Go's [error] values, kept as data.  The provider only tests them
    against [nil] and hands them to [fmt.Sprintf]; their rendered text is
    not needed. *)

Module net_url_types.

Record Userinfo : Type := mkUserinfo {
  username : string;
  password : string;
  passwordSet : bool
}.

(** [url.URL] *)
Record URL : Type := mkURL {
  Scheme : string;
  Opaque : string;
  User : option Userinfo;
  Host : string;
  Path : string;
  RawPath : string;
  OmitHost : bool;
  ForceQuery : bool;
  RawQuery : string;
  Fragment : string;
  RawFragment : string
}.

End net_url_types.
Export net_url_types.

Inductive error : Type :=
| errors_New (text : string)
| fmt_Errorf (format : string) (arg : string)
| url_EscapeError (s : string)
| url_InvalidHostError (s : string)
| url_Error (Op : string) (rawURL : string) (Err : error)
    (* [&url.Error{Op, URL, Err}] as built by [url.Parse] *)
| client_Error (Op : string) (u : URL) (Err : error)
    (* [&url.Error{Op, URL: u.String(), Err}] as built by [http.Client.Do] *)
| json_SyntaxError
| json_UnmarshalTypeError (Value : string)
| io_EOF
| io_ErrUnexpectedEOF.

(** A Go result pair [(T, error)] in which exactly one side is set. *)
Inductive result (A : Type) : Type :=
| Ok (a : A)
| Err (e : error).
Arguments Ok {A} a.
Arguments Err {A} e.

Definition is_Err {A} (r : result A) : bool :=
  match r with Ok _ => false | Err _ => true end.

(** ** Package [strings] *)

Module go_strings.

(** [strings.Cut(s, sep)] for a one-byte separator. *)
Fixpoint Cut (s : string) (sep : ascii) : string * string * bool :=
  match s with
  | EmptyString => (EmptyString, EmptyString, false)
  | String c s' =>
      if Ascii.eqb c sep then (EmptyString, s', true)
      else let '(before, after, found) := Cut s' sep in
           (String c before, after, found)
  end.

(** [strings.IndexByte]; [None] stands for [-1]. *)
Fixpoint IndexByte (s : string) (c : ascii) : option nat :=
  match s with
  | EmptyString => None
  | String a s' => if Ascii.eqb a c then Some 0 else option_map S (IndexByte s' c)
  end.

(** [strings.LastIndex(s, sep)] for a one-byte separator. *)
Fixpoint LastIndexByte (s : string) (c : ascii) : option nat :=
  match s with
  | EmptyString => None
  | String a s' =>
      match LastIndexByte s' c with
      | Some i => Some (S i)
      | None => if Ascii.eqb a c then Some 0 else None
      end
  end.

Definition HasPrefix (s p : string) : bool := String.prefix p s.

(** [strings.Index(s, substr)] *)
Fixpoint Index (s sub : string) : option nat :=
  if String.prefix sub s then Some 0
  else match s with
       | EmptyString => None
       | String _ s' => option_map S (Index s' sub)
       end.

Definition Contains (s : string) (c : ascii) : bool :=
  match IndexByte s c with Some _ => true | None => false end.

(** [strings.Count(s, sep)] for a one-byte separator. *)
Fixpoint Count (s : string) (c : ascii) : nat :=
  match s with
  | EmptyString => 0
  | String a s' => (if Ascii.eqb a c then 1 else 0) + Count s' c
  end.

(** [strings.HasSuffix(s, sep)] for a one-byte suffix. *)
Fixpoint HasSuffix (s : string) (c : ascii) : bool :=
  match s with
  | EmptyString => false
  | String a EmptyString => Ascii.eqb a c
  | String _ s' => HasSuffix s' c
  end.

(** The slices [s[:i]] and [s[i:]]. *)
Fixpoint slice_to (i : nat) (s : string) : string :=
  match i, s with
  | S i', String c s' => String c (slice_to i' s')
  | _, _ => EmptyString
  end.

Fixpoint slice_from (i : nat) (s : string) : string :=
  match i, s with
  | S i', String _ s' => slice_from i' s'
  | _, _ => s
  end.

(** [strings.ToLower] on the ASCII letters (the only place it is used is
    the scheme, which [getScheme] restricts to ASCII). *)
Definition lower_byte (c : ascii) : ascii :=
  if is_upper c then ascii_of_N (code c + 32) else c.

Fixpoint ToLower (s : string) : string :=
  match s with
  | EmptyString => EmptyString
  | String c s' => String (lower_byte c) (ToLower s')
  end.

(** [strings.TrimSuffix(s, suffix)] for a one-byte suffix. *)
Definition TrimSuffix (s : string) (c : ascii) : string :=
  if HasSuffix s c then slice_to (String.length s - 1) s else s.

End go_strings.

(** ** Package [net/url]: [Parse] and what it calls *)

Module net_url.
Import go_strings.

Definition set_Scheme (v : string) (u : URL) : URL :=
  mkURL v (Opaque u) (User u) (Host u) (Path u) (RawPath u) (OmitHost u)
        (ForceQuery u) (RawQuery u) (Fragment u) (RawFragment u).

Definition set_Host (v : string) (u : URL) : URL :=
  mkURL (Scheme u) (Opaque u) (User u) v (Path u) (RawPath u) (OmitHost u)
        (ForceQuery u) (RawQuery u) (Fragment u) (RawFragment u).

Definition set_Fragment (f raw : string) (u : URL) : URL :=
  mkURL (Scheme u) (Opaque u) (User u) (Host u) (Path u) (RawPath u)
        (OmitHost u) (ForceQuery u) (RawQuery u) f raw.

Inductive encoding : Type :=
| encodePath
| encodePathSegment
| encodeHost
| encodeZone
| encodeUserPassword
| encodeQueryComponent
| encodeFragment.

Definition host_or_zone (mode : encoding) : bool :=
  match mode with encodeHost | encodeZone => true | _ => false end.

Definition double_quote : ascii := "034"%char.

Definition ishex (c : ascii) : bool :=
  is_digit c || between "a" "f" c || between "A" "F" c.

Definition unhex (c : ascii) : N :=
  if is_digit c then (code c - 48)%N
  else if between "a" "f" c then (code c - 97 + 10)%N
  else if between "A" "F" c then (code c - 65 + 10)%N
  else 0%N.

(** [shouldEscape(c, mode)] *)
Definition shouldEscape (c : ascii) (mode : encoding) : bool :=
  if is_alnum c then false
  else if host_or_zone mode
          && (one_of "!$&'()*+,;=:[]<>" c || Ascii.eqb c double_quote)
  then false
  else if one_of "-_.~" c then false
  else if one_of "$&+,/:;=?@" c then
    match mode with
    | encodePath => Ascii.eqb c "?"
    | encodePathSegment => one_of "/;,?" c
    | encodeUserPassword => one_of "@/?:" c
    | encodeQueryComponent => true
    | encodeFragment => false
    | encodeHost | encodeZone => true
    end
  else if match mode with encodeFragment => one_of "!()*" c | _ => false end
  then false
  else true.

Definition is_query_component (mode : encoding) : bool :=
  match mode with encodeQueryComponent => true | _ => false end.

(** [unescape(s, mode)]: the validation pass and the decoding pass of the
    Go function, merged into one traversal (the first offending position
    decides the error in both). *)
Fixpoint unescape (s : string) (mode : encoding) : result string :=
  match s with
  | EmptyString => Ok EmptyString
  | String "%" rest =>
      match rest with
      | String h1 (String h2 rest') =>
          if ishex h1 && ishex h2 then
            let v := (unhex h1 * 16 + unhex h2)%N in
            let esc := String "%" (String h1 (String h2 EmptyString)) in
            if match mode with encodeHost => true | _ => false end
               && (unhex h1 <? 8)%N && negb (esc =? "%25")
            then Err (url_EscapeError esc)
            else if match mode with encodeZone => true | _ => false end
                    && negb (esc =? "%25") && negb (v =? 32)%N
                    && shouldEscape (ascii_of_N v) encodeHost
            then Err (url_EscapeError esc)
            else match unescape rest' mode with
                 | Ok t => Ok (String (ascii_of_N v) t)
                 | Err e => Err e
                 end
          else Err (url_EscapeError (slice_to 3 s))
      | _ => Err (url_EscapeError (slice_to 3 s))
      end
  | String c rest =>
      if host_or_zone mode && (code c <? 128)%N && shouldEscape c encodeHost
      then Err (url_InvalidHostError (String c EmptyString))
      else match unescape rest mode with
           | Ok t =>
               Ok (String (if Ascii.eqb c "+" && is_query_component mode
                           then " "%char else c) t)
           | Err e => Err e
           end
  end.

Definition upperhex (n : N) : ascii :=
  match String.get (N.to_nat n) "0123456789ABCDEF" with
  | Some c => c
  | None => "0"%char
  end.

(** [escape(s, mode)] *)
Fixpoint escape (s : string) (mode : encoding) : string :=
  match s with
  | EmptyString => EmptyString
  | String c s' =>
      if shouldEscape c mode then
        if Ascii.eqb c " " && is_query_component mode
        then String "+" (escape s' mode)
        else String "%" (String (upperhex (code c / 16))
                          (String (upperhex (code c mod 16)) (escape s' mode)))
      else String c (escape s' mode)
  end.

(** [stringContainsCTLByte] *)
Definition isCTL (c : ascii) : bool := (code c <? 32)%N || (code c =? 127)%N.

Definition stringContainsCTLByte (s : string) : bool :=
  negb (all_bytes (fun c => negb (isCTL c)) s).

(** The loop of [getScheme], from position [i] on; [at0] says that
    [i = 0]. *)
Inductive scheme_scan : Type :=
| SchemeAt (scheme rest : string)
| NoScheme
| MissingScheme.

Definition scheme_cons (c : ascii) (r : scheme_scan) : scheme_scan :=
  match r with
  | SchemeAt scheme rest => SchemeAt (String c scheme) rest
  | other => other
  end.

Fixpoint scanScheme (at0 : bool) (s : string) : scheme_scan :=
  match s with
  | EmptyString => NoScheme
  | String c s' =>
      if is_letter c then scheme_cons c (scanScheme false s')
      else if is_digit c || one_of "+-." c then
        if at0 then NoScheme else scheme_cons c (scanScheme false s')
      else if Ascii.eqb c ":" then
        if at0 then MissingScheme else SchemeAt EmptyString s'
      else NoScheme
  end.

(** [getScheme(rawURL)] *)
Definition getScheme (rawURL : string) : result (string * string) :=
  match scanScheme true rawURL with
  | SchemeAt scheme rest => Ok (scheme, rest)
  | NoScheme => Ok (EmptyString, rawURL)
  | MissingScheme => Err (errors_New "missing protocol scheme")
  end.

(** [validOptionalPort(port)] *)
Definition validOptionalPort (port : string) : bool :=
  match port with
  | EmptyString => true
  | String c digits => Ascii.eqb c ":" && all_bytes is_digit digits
  end.

(** [validUserinfo(s)]; a byte outside ASCII never belongs to a rune of
    the accepted set. *)
Definition validUserinfo (s : string) : bool :=
  all_bytes (fun c => is_alnum c || one_of "-._:~!$&'()*+,;=%@" c) s.

(** [parseHost(host)] *)
Definition parseHost (host : string) : result string :=
  if HasPrefix host "[" then
    match LastIndexByte host "]" with
    | None => Err (errors_New "missing ']' in host")
    | Some i =>
        let colonPort := slice_from (i + 1) host in
        if negb (validOptionalPort colonPort)
        then Err (fmt_Errorf "invalid port %q after host" colonPort)
        else
          match Index (slice_to i host) "%25" with
          | Some zone =>
              match unescape (slice_to zone host) encodeHost with
              | Err e => Err e
              | Ok host1 =>
                  match unescape (slice_to (i - zone) (slice_from zone host))
                                 encodeZone with
                  | Err e => Err e
                  | Ok host2 =>
                      match unescape (slice_from i host) encodeHost with
                      | Err e => Err e
                      | Ok host3 => Ok (host1 +:+ host2 +:+ host3)
                      end
                  end
              end
          | None => unescape host encodeHost
          end
    end
  else
    match LastIndexByte host ":" with
    | Some i =>
        let colonPort := slice_from i host in
        if negb (validOptionalPort colonPort)
        then Err (fmt_Errorf "invalid port %q after host" colonPort)
        else unescape host encodeHost
    | None => unescape host encodeHost
    end.

(** [parseAuthority(authority)] *)
Definition parseAuthority (authority : string)
  : result (option Userinfo * string) :=
  let at_sign := LastIndexByte authority "@" in
  match parseHost (match at_sign with
                   | None => authority
                   | Some i => slice_from (i + 1) authority
                   end) with
  | Err e => Err e
  | Ok host =>
      match at_sign with
      | None => Ok (None, host)
      | Some i =>
          let userinfo := slice_to i authority in
          if negb (validUserinfo userinfo)
          then Err (errors_New "net/url: invalid userinfo")
          else if negb (Contains userinfo ":") then
            match unescape userinfo encodeUserPassword with
            | Err e => Err e
            | Ok name => Ok (Some (mkUserinfo name EmptyString false), host)
            end
          else
            let '(name0, pass0, _) := Cut userinfo ":" in
            match unescape name0 encodeUserPassword with
            | Err e => Err e
            | Ok name =>
                match unescape pass0 encodeUserPassword with
                | Err e => Err e
                | Ok pass => Ok (Some (mkUserinfo name pass true), host)
                end
            end
      end
  end.

(** [parse(rawURL, viaRequest)] *)
Definition parse (rawURL : string) (viaRequest : bool) : result URL :=
  if stringContainsCTLByte rawURL
  then Err (errors_New "net/url: invalid control character in URL")
  else if (rawURL =? "") && viaRequest then Err (errors_New "empty url")
  else if rawURL =? "*"
  then Ok (mkURL "" "" None "" "*" "" false false "" "" "")
  else
    match getScheme rawURL with
    | Err e => Err e
    | Ok (scheme0, rest0) =>
        let scheme := ToLower scheme0 in
        let '(rest1, rawQuery, forceQuery) :=
          if HasSuffix rest0 "?" && (Count rest0 "?" =? 1)%nat
          then (slice_to (String.length rest0 - 1) rest0, EmptyString, true)
          else let '(before, after, _) := Cut rest0 "?" in
               (before, after, false) in
        let rooted := HasPrefix rest1 "/" in
        if negb rooted && negb (scheme =? "")
        then Ok (mkURL scheme rest1 None "" "" "" false forceQuery rawQuery "" "")
        else if negb rooted && viaRequest
        then Err (errors_New "invalid URI for request")
        else if negb rooted && Contains (fst (fst (Cut rest1 "/"))) ":"
        then Err (errors_New "first path segment in URL cannot contain colon")
        else
          let located : result (option Userinfo * string * string * bool) :=
            if (negb (scheme =? "")
                || negb viaRequest && negb (HasPrefix rest1 "///"))
               && HasPrefix rest1 "//"
            then
              let authority0 := slice_from 2 rest1 in
              let '(authority, rest2) :=
                match IndexByte authority0 "/" with
                | Some i => (slice_to i authority0, slice_from i authority0)
                | None => (authority0, EmptyString)
                end in
              match parseAuthority authority with
              | Err e => Err e
              | Ok (user, host) => Ok (user, host, rest2, false)
              end
            else if negb (scheme =? "") && rooted
            then Ok (None, EmptyString, rest1, true)
            else Ok (None, EmptyString, rest1, false) in
          match located with
          | Err e => Err e
          | Ok (user, host, rest2, omitHost) =>
              (* setPath(rest2) *)
              match unescape rest2 encodePath with
              | Err e => Err e
              | Ok path =>
                  let rawPath :=
                    if rest2 =? escape path encodePath
                    then EmptyString else rest2 in
                  Ok (mkURL scheme "" user host path rawPath omitHost
                            forceQuery rawQuery "" "")
              end
          end
    end.

(** [url.Parse(rawURL)] *)
Definition Parse (rawURL : string) : result URL :=
  let '(u, frag, _) := Cut rawURL "#" in
  match parse u false with
  | Err e => Err (url_Error "parse" u e)
  | Ok url =>
      if frag =? "" then Ok url
      else
        (* setFragment(frag) *)
        match unescape frag encodeFragment with
        | Err e => Err (url_Error "parse" rawURL e)
        | Ok f =>
            Ok (set_Fragment f (if frag =? escape f encodeFragment
                                then EmptyString else frag) url)
        end
  end.

End net_url.

(** ** Package [net/http]: headers, requests, clients *)

Module net_http.
Import go_strings.

(** [http.Header] is [map[string][]string]. *)
Abbreviation Headers := (gmap string (list string)).

(** [httpguts.IsTokenRune] on bytes, which is also
    [textproto.validHeaderFieldByte]. *)
Definition isToken (c : ascii) : bool :=
  is_alnum c || one_of "!#$%&'*+-.^_`|~" c.

Definition upper_byte (c : ascii) : ascii :=
  if is_lower c then ascii_of_N (code c - 32) else c.

(** The rewriting loop of [textproto.canonicalMIMEHeaderKey]: upper case
    for the first letter and after each dash, lower case elsewhere. *)
Fixpoint canonical_case (upper : bool) (s : string) : string :=
  match s with
  | EmptyString => EmptyString
  | String c s' =>
      let c' := if upper then upper_byte c else lower_byte c in
      String c' (canonical_case (Ascii.eqb c' "-") s')
  end.

(** [textproto.CanonicalMIMEHeaderKey]: a key with a byte that is not a
    header field byte is returned unchanged. *)
Definition CanonicalMIMEHeaderKey (s : string) : string :=
  if all_bytes isToken s then canonical_case true s else s.

(** [Header.Add(key, value)]: append to the values of the canonical key. *)
Definition Header_Add (key value : string) (h : Headers) : Headers :=
  let key := CanonicalMIMEHeaderKey key in
  <[ key := (default [] (h !! key) ++ [value])%list ]> h.

(** [Header.Values(key)] *)
Definition Header_Values (key : string) (h : Headers) : list string :=
  default [] (h !! CanonicalMIMEHeaderKey key).

(** [Header.Get(key)]: the first value, or the empty string. *)
Definition Header_Get (key : string) (h : Headers) : string :=
  match Header_Values key h with
  | v :: _ => v
  | [] => EmptyString
  end.

(** [http.Request], with the fields that [http.NewRequest] sets. *)
Record Request : Type := mkRequest {
  Method : string;
  URL : net_url_types.URL;
  Proto : string;
  Header : gmap string (list string);
  Body : option string;
  ReqHost : string          (* the field [Host] of the request *)
}.

Definition set_URL (u : net_url_types.URL) (r : Request) : Request :=
  mkRequest (Method r) u (Proto r) (Header r) (Body r) (ReqHost r).

Definition set_Header (h : gmap string (list string)) (r : Request) : Request :=
  mkRequest (Method r) (URL r) (Proto r) h (Body r) (ReqHost r).

(** [http.Response]: status and body, the body read to its end. *)
Record Response : Type := mkResponse {
  StatusCode : Z;
  RespHeader : gmap string (list string);
  RespBody : string
}.

(** When [Client.do] does not return the response that it got but goes
    on to a further request: [redirectBehavior] asks for a redirect on the
    status codes 301, 302, 303, 307 and 308, and the loop follows it when
    the response names a [Location].  (On 307 and 308 a request whose body
    cannot be sent again is not redirected; that case is counted here as
    well.) *)
Definition redirected (resp : Response) : bool :=
  ((StatusCode resp =? 301) || (StatusCode resp =? 302)
   || (StatusCode resp =? 303) || (StatusCode resp =? 307)
   || (StatusCode resp =? 308))%Z
  && negb (Header_Get "Location" (RespHeader resp) =? "").

(** [validMethod(method)] *)
Definition validMethod (method : string) : bool :=
  negb (method =? "") && all_bytes isToken method.

(** [hasPort] and [removeEmptyPort] *)
Definition hasPort (s : string) : bool :=
  match LastIndexByte s ":", LastIndexByte s "]" with
  | Some i, Some j => (j <? i)%nat
  | Some _, None => true
  | None, _ => false
  end.

Definition removeEmptyPort (host : string) : string :=
  if hasPort host then TrimSuffix host ":" else host.

(** [http.NewRequest(method, url, nil)] *)
Definition NewRequest (method url : string) : result Request :=
  let method := if method =? "" then "GET" else method in
  if negb (validMethod method)
  then Err (fmt_Errorf "net/http: invalid method %q" method)
  else
    match net_url.Parse url with
    | Err e => Err e
    | Ok u =>
        let u := net_url.set_Host (removeEmptyPort (Host u)) u in
        Ok (mkRequest method u "HTTP/1.1" ∅ None (Host u))
    end.

Section transports.

(** The state of everything beyond the process: network and remote
    service. *)
Context {W : Type}.

(** A value of the interface [http.RoundTripper], given by its method
    [RoundTrip].  The request is passed by pointer: the method also yields
    the request as it leaves it. *)
Definition RoundTripper : Type :=
  Request -> W -> result Response * Request * W.

(** [http.Client]; of its fields the provider sets [Transport]. *)
Record Client : Type := mkClient {
  Transport : option RoundTripper
}.

End transports.
Arguments RoundTripper W : clear implicits.
Arguments Client W : clear implicits.

End net_http.

(** ** The plugin framework: [types], [diag], [tfsdk] *)

Module framework.

(** [types.String] *)
Inductive types_String : Type :=
| StringNull
| StringUnknown
| StringValue (s : string).

(** [(types.String).ValueString()] *)
Definition ValueString (v : types_String) : string :=
  match v with
  | StringValue s => s
  | StringNull | StringUnknown => EmptyString
  end.

(** A call [fmt.Sprintf(format, args...)] whose arguments are not plain
    strings, kept as the format and its arguments. *)
Inductive fmt_arg : Type :=
| arg_error (e : error)          (* rendered by [%s] through [Error()] *)
| arg_type (T : string).         (* the dynamic type printed by [%T] *)

Record text : Type := fmt_Sprintf {
  format : string;
  args : list fmt_arg
}.

Inductive Severity : Type :=
| SeverityError
| SeverityWarning.

(** [diag.Diagnostic] *)
Record Diagnostic : Type := mkDiagnostic {
  severity : Severity;
  Summary : string;
  Detail : text
}.

Definition NewErrorDiagnostic (summary : string) (detail : text) : Diagnostic :=
  mkDiagnostic SeverityError summary detail.

End framework.
Export framework.

#[global] Instance Userinfo_eq_dec : EqDecision Userinfo.
Proof. solve_decision. Defined.
#[global] Instance URL_eq_dec : EqDecision net_url_types.URL.
Proof. solve_decision. Defined.
#[global] Instance error_eq_dec : EqDecision error.
Proof. solve_decision. Defined.
#[global] Instance fmt_arg_eq_dec : EqDecision fmt_arg.
Proof. solve_decision. Defined.
#[global] Instance text_eq_dec : EqDecision text.
Proof. solve_decision. Defined.
#[global] Instance Severity_eq_dec : EqDecision Severity.
Proof. solve_decision. Defined.
#[global] Instance Diagnostic_eq_dec : EqDecision Diagnostic.
Proof. solve_decision. Defined.

Module diag.

(** [diag.Diagnostics] *)
Abbreviation Diagnostics := (list Diagnostic).

(** [Diagnostics.HasError()] *)
Definition HasError (diags : list Diagnostic) : bool :=
  existsb (fun d => bool_decide (severity d = SeverityError)) diags.

(** [Diagnostics.Contains(d)] *)
Definition Contains (diags : list Diagnostic) (d : Diagnostic) : bool :=
  existsb (fun x => bool_decide (x = d)) diags.

(** [Diagnostics.Append(in...)]: duplicates are not added again. *)
Fixpoint Append (diags : list Diagnostic) (new : list Diagnostic)
  : list Diagnostic :=
  match new with
  | [] => diags
  | d :: rest =>
      Append (if Contains diags d then diags else (diags ++ [d])%list) rest
  end.

(** [Diagnostics.AddError(summary, detail)] *)
Definition AddError (summary : string) (detail : text)
    (diags : list Diagnostic) : list Diagnostic :=
  Append diags [NewErrorDiagnostic summary detail].

End diag.

(** ** Package [unicode/utf8] *)

Module utf8.

Definition RuneError : N := 65533.      (* U+FFFD *)

Definition byte_of (n : N) : ascii := ascii_of_N (n mod 256).

Definition in_range (lo hi : N) (c : ascii) : bool :=
  (lo <=? code c)%N && (code c <=? hi)%N.

Definition low6 (c : ascii) : N := N.land (code c) 63.

(** [utf8.DecodeRune]: the rune at the head of [s] and its width; an
    invalid or short encoding gives [(RuneError, 1)]. *)
Definition DecodeRune (s : string) : N * nat :=
  match s with
  | EmptyString => (RuneError, 0)
  | String b0 s1 =>
      let x := code b0 in
      if (x <? 128)%N then (x, 1)
      else if in_range 194 223 b0 then
        match s1 with
        | String b1 _ =>
            if in_range 128 191 b1
            then ((N.land x 31 * 64 + low6 b1)%N, 2)
            else (RuneError, 1)
        | _ => (RuneError, 1)
        end
      else if in_range 224 239 b0 then
        match s1 with
        | String b1 (String b2 _) =>
            if in_range (if (x =? 224)%N then 160 else 128)
                        (if (x =? 237)%N then 159 else 191) b1
               && in_range 128 191 b2
            then ((N.land x 15 * 4096 + low6 b1 * 64 + low6 b2)%N, 3)
            else (RuneError, 1)
        | _ => (RuneError, 1)
        end
      else if in_range 240 244 b0 then
        match s1 with
        | String b1 (String b2 (String b3 _)) =>
            if in_range (if (x =? 240)%N then 144 else 128)
                        (if (x =? 244)%N then 143 else 191) b1
               && in_range 128 191 b2 && in_range 128 191 b3
            then ((N.land x 7 * 262144 + low6 b1 * 4096
                   + low6 b2 * 64 + low6 b3)%N, 4)
            else (RuneError, 1)
        | _ => (RuneError, 1)
        end
      else (RuneError, 1)
  end.

Definition isSurrogate (r : N) : bool := (55296 <=? r)%N && (r <? 57344)%N.

(** [utf8.AppendRune] to the empty string. *)
Definition EncodeRune (r : N) : string :=
  if (r <? 128)%N then String (byte_of r) EmptyString
  else if (r <? 2048)%N then
    String (byte_of (192 + r / 64))
      (String (byte_of (128 + r mod 64)) EmptyString)
  else if (1114111 <? r)%N || isSurrogate r then
    String (byte_of 239) (String (byte_of 191) (String (byte_of 189) EmptyString))
  else if (r <? 65536)%N then
    String (byte_of (224 + r / 4096))
      (String (byte_of (128 + (r / 64) mod 64))
         (String (byte_of (128 + r mod 64)) EmptyString))
  else
    String (byte_of (240 + r / 262144))
      (String (byte_of (128 + (r / 4096) mod 64))
         (String (byte_of (128 + (r / 64) mod 64))
            (String (byte_of (128 + r mod 64)) EmptyString))).

End utf8.

(** ** Package [encoding/json]: the decoder *)

Module encoding_json.
Import go_strings.

(** A scanned JSON value; strings are held unquoted, numbers as their
    literal. *)
#[warnings="-register-all"] Inductive json : Type :=
| JNull
| JBool (b : bool)
| JNumber (literal : string)
| JString (s : string)
| JArray (elements : list json)
| JObject (members : list (string * json)).

(** The outcome of scanning a prefix of the input. *)
Inductive scan (A : Type) : Type :=
| Scanned (a : A) (rest : string)
| Truncated                  (* the input ends inside the value *)
| Invalid.                   (* a byte the scanner refuses *)
Arguments Scanned {A} a rest.
Arguments Truncated {A}.
Arguments Invalid {A}.

Definition scan_map {A B} (f : A -> B) (r : scan A) : scan B :=
  match r with
  | Scanned a rest => Scanned (f a) rest
  | Truncated => Truncated
  | Invalid => Invalid
  end.

Definition maxNestingDepth : N := 10000.

Definition tab : ascii := "009"%char.
Definition new_line : ascii := "010"%char.
Definition carriage_return : ascii := "013"%char.
Definition back_space : ascii := "008"%char.
Definition form_feed : ascii := "012"%char.
Definition double_quote : ascii := "034"%char.
Definition back_slash : ascii := "092"%char.

(** [isSpace] *)
Definition isSpace (c : ascii) : bool :=
  Ascii.eqb c " " || Ascii.eqb c tab || Ascii.eqb c carriage_return
  || Ascii.eqb c new_line.

Fixpoint skipSpace (s : string) : string :=
  match s with
  | String c s' => if isSpace c then skipSpace s' else s
  | EmptyString => EmptyString
  end.

(** The literals [true], [false], [null], after their first byte. *)
Fixpoint scanLiteral (expect : string) (s : string) : scan unit :=
  match expect with
  | EmptyString => Scanned tt s
  | String e expect' =>
      match s with
      | EmptyString => Truncated
      | String c s' => if Ascii.eqb c e then scanLiteral expect' s' else Invalid
      end
  end.

(** The scanner's states inside a number. *)
Inductive numstate : Type :=
| stateNeg | state0 | state1 | stateDot | stateDot0
| stateE | stateESign | stateE0.

Definition num_step (st : numstate) (c : ascii) : option numstate :=
  let after0 :=
    if Ascii.eqb c "." then Some stateDot
    else if Ascii.eqb c "e" || Ascii.eqb c "E" then Some stateE
    else None in
  match st with
  | stateNeg =>
      if Ascii.eqb c "0" then Some state0
      else if between "1" "9" c then Some state1 else None
  | state0 => after0
  | state1 => if is_digit c then Some state1 else after0
  | stateDot => if is_digit c then Some stateDot0 else None
  | stateDot0 =>
      if is_digit c then Some stateDot0
      else if Ascii.eqb c "e" || Ascii.eqb c "E" then Some stateE else None
  | stateE =>
      if Ascii.eqb c "+" || Ascii.eqb c "-" then Some stateESign
      else if is_digit c then Some stateE0 else None
  | stateESign => if is_digit c then Some stateE0 else None
  | stateE0 => if is_digit c then Some stateE0 else None
  end.

Definition num_complete (st : numstate) : bool :=
  match st with
  | state0 | state1 | stateDot0 | stateE0 => true
  | _ => false
  end.

Fixpoint scanNumber (st : numstate) (s : string) : scan string :=
  match s with
  | EmptyString => if num_complete st then Scanned EmptyString s else Truncated
  | String c s' =>
      match num_step st c with
      | Some st' => scan_map (String c) (scanNumber st' s')
      | None => if num_complete st then Scanned EmptyString s else Invalid
      end
  end.

(** [n] hexadecimal digits. *)
Fixpoint scanHex (n : nat) (s : string) : scan string :=
  match n with
  | 0 => Scanned EmptyString s
  | S n' =>
      match s with
      | EmptyString => Truncated
      | String h s' =>
          if net_url.ishex h then scan_map (String h) (scanHex n' s') else Invalid
      end
  end.

(** A string literal after its opening quote: the raw bytes up to the
    closing quote, escapes checked and kept. *)
Fixpoint scanString (fuel : nat) (s : string) : scan string :=
  match fuel with
  | 0 => Invalid
  | S fuel' =>
      match s with
      | EmptyString => Truncated
      | String c s' =>
          if Ascii.eqb c double_quote then Scanned EmptyString s'
          else if Ascii.eqb c back_slash then
            match s' with
            | EmptyString => Truncated
            | String e s'' =>
                if one_of "bfnrt/" e || Ascii.eqb e back_slash
                   || Ascii.eqb e double_quote
                then scan_map (fun t => String c (String e t))
                              (scanString fuel' s'')
                else if Ascii.eqb e "u" then
                  match scanHex 4 s'' with
                  | Scanned hex rest =>
                      scan_map (fun t => String c (String e (hex +:+ t)))
                               (scanString fuel' rest)
                  | Truncated => Truncated
                  | Invalid => Invalid
                  end
                else Invalid
            end
          else if (code c <? 32)%N then Invalid
          else scan_map (String c) (scanString fuel' s')
      end
  end.

Fixpoint hex_value (acc : N) (s : string) : N :=
  match s with
  | EmptyString => acc
  | String h s' => hex_value (acc * 16 + net_url.unhex h)%N s'
  end.

(** [getu4]: the rune of a leading [\uXXXX], if there is one. *)
Definition getu4 (s : string) : option N :=
  match s with
  | String b (String u rest) =>
      if Ascii.eqb b back_slash && Ascii.eqb u "u" then
        match scanHex 4 rest with
        | Scanned hex _ => Some (hex_value 0 hex)
        | _ => None
        end
      else None
  | _ => None
  end.

(** [utf16.DecodeRune] *)
Definition utf16_DecodeRune (r1 : N) (r2 : option N) : N :=
  match r2 with
  | Some r2 =>
      if (55296 <=? r1)%N && (r1 <? 56320)%N
         && (56320 <=? r2)%N && (r2 <? 57344)%N
      then ((r1 - 55296) * 1024 + (r2 - 56320) + 65536)%N
      else utf8.RuneError
  | None => utf8.RuneError
  end.

Definition escaped_byte (e : ascii) : ascii :=
  if Ascii.eqb e "b" then back_space
  else if Ascii.eqb e "f" then form_feed
  else if Ascii.eqb e "n" then new_line
  else if Ascii.eqb e "r" then carriage_return
  else if Ascii.eqb e "t" then tab
  else e.

(** [unquote]: the text of a scanned string literal; escapes are replaced
    and bytes that are not UTF-8 become U+FFFD. *)
Fixpoint unquote (fuel : nat) (s : string) : string :=
  match fuel with
  | 0 => EmptyString
  | S fuel' =>
      match s with
      | EmptyString => EmptyString
      | String c s' =>
          if Ascii.eqb c back_slash then
            match s' with
            | EmptyString => EmptyString
            | String e s'' =>
                if Ascii.eqb e "u" then
                  match getu4 s with
                  | None => EmptyString
                  | Some rr =>
                      let rest := slice_from 6 s in
                      if utf8.isSurrogate rr then
                        let dec := utf16_DecodeRune rr (getu4 rest) in
                        if (dec =? utf8.RuneError)%N
                        then utf8.EncodeRune utf8.RuneError +:+ unquote fuel' rest
                        else utf8.EncodeRune dec
                             +:+ unquote fuel' (slice_from 6 rest)
                      else utf8.EncodeRune rr +:+ unquote fuel' rest
                  end
                else String (escaped_byte e) (unquote fuel' s'')
            end
          else if (code c <? 128)%N then String c (unquote fuel' s')
          else
            let '(rr, size) := utf8.DecodeRune s in
            utf8.EncodeRune rr +:+ unquote fuel' (slice_from size s)
      end
  end.

Definition scanQuoted (s : string) : scan string :=
  scan_map (fun raw => unquote (String.length raw) raw)
           (scanString (S (String.length s)) s).

(** The grammar of values.  [depth] counts the open objects and arrays;
    each call consumes input, so [fuel] above the input's length is never
    used up. *)
Fixpoint scanValue (fuel : nat) (depth : N) (s : string) : scan json :=
  match fuel with
  | 0 => Invalid
  | S fuel' =>
      match skipSpace s with
      | EmptyString => Truncated
      | String c s' =>
          if Ascii.eqb c "{" then
            if (maxNestingDepth <=? depth)%N then Invalid
            else
              match skipSpace s' with
              | EmptyString => Truncated
              | String c1 s1 =>
                  if Ascii.eqb c1 "}" then Scanned (JObject []) s1
                  else scan_map JObject
                         (scanMembers fuel' (depth + 1)%N (String c1 s1))
              end
          else if Ascii.eqb c "[" then
            if (maxNestingDepth <=? depth)%N then Invalid
            else
              match skipSpace s' with
              | EmptyString => Truncated
              | String c1 s1 =>
                  if Ascii.eqb c1 "]" then Scanned (JArray []) s1
                  else scan_map JArray
                         (scanElements fuel' (depth + 1)%N (String c1 s1))
              end
          else if Ascii.eqb c double_quote then scan_map JString (scanQuoted s')
          else if Ascii.eqb c "-" then
            scan_map (fun l => JNumber (String c l)) (scanNumber stateNeg s')
          else if Ascii.eqb c "0" then
            scan_map (fun l => JNumber (String c l)) (scanNumber state0 s')
          else if between "1" "9" c then
            scan_map (fun l => JNumber (String c l)) (scanNumber state1 s')
          else if Ascii.eqb c "t" then
            scan_map (fun _ => JBool true) (scanLiteral "rue" s')
          else if Ascii.eqb c "f" then
            scan_map (fun _ => JBool false) (scanLiteral "alse" s')
          else if Ascii.eqb c "n" then
            scan_map (fun _ => JNull) (scanLiteral "ull" s')
          else Invalid
      end
  end

(** The members of an object from a key on, up to the closing brace. *)
with scanMembers (fuel : nat) (depth : N) (s : string)
  : scan (list (string * json)) :=
  match fuel with
  | 0 => Invalid
  | S fuel' =>
      match skipSpace s with
      | EmptyString => Truncated
      | String q s1 =>
          if negb (Ascii.eqb q double_quote) then Invalid
          else
            match scanQuoted s1 with
            | Truncated => Truncated
            | Invalid => Invalid
            | Scanned key s2 =>
                match skipSpace s2 with
                | EmptyString => Truncated
                | String colon s3 =>
                    if negb (Ascii.eqb colon ":") then Invalid
                    else
                      match scanValue fuel' depth s3 with
                      | Truncated => Truncated
                      | Invalid => Invalid
                      | Scanned v s4 =>
                          match skipSpace s4 with
                          | EmptyString => Truncated
                          | String c s5 =>
                              if Ascii.eqb c "}" then Scanned [(key, v)] s5
                              else if Ascii.eqb c "," then
                                scan_map (cons (key, v))
                                         (scanMembers fuel' depth s5)
                              else Invalid
                          end
                      end
                end
            end
      end
  end

(** The elements of an array from a value on, up to the closing bracket. *)
with scanElements (fuel : nat) (depth : N) (s : string) : scan (list json) :=
  match fuel with
  | 0 => Invalid
  | S fuel' =>
      match scanValue fuel' depth s with
      | Truncated => Truncated
      | Invalid => Invalid
      | Scanned v s1 =>
          match skipSpace s1 with
          | EmptyString => Truncated
          | String c s2 =>
              if Ascii.eqb c "]" then Scanned [v] s2
              else if Ascii.eqb c "," then
                scan_map (cons v) (scanElements fuel' depth s2)
              else Invalid
          end
      end
  end.

(** [Decoder.readValue]: the first value of the stream; what follows it
    is left unread. *)
Definition readValue (body : string) : result json :=
  match scanValue (2 * String.length body + 2) 0 body with
  | Scanned j _ => Ok j
  | Truncated =>
      if skipSpace body =? "" then Err io_EOF else Err io_ErrUnexpectedEOF
  | Invalid => Err json_SyntaxError
  end.


(** The mask [caseMask] clears the bit that separates the two cases of an
    ASCII letter. *)
Definition caseMask (c : ascii) : ascii := ascii_of_N (N.land (code c) 223).

(** The folding comparison of a field name [s], which is ASCII, with an
    object key [t]: letters match in either case, other bytes exactly, and
    the key may write U+017F for [s] and U+212A for [k]. *)
Fixpoint equalFold (s t : string) : bool :=
  match s with
  | EmptyString => t =? ""
  | String sb s' =>
      match t with
      | EmptyString => false
      | String tb t' =>
          if (code tb <? 128)%N then
            (Ascii.eqb sb tb
             || is_upper (caseMask sb) && Ascii.eqb (caseMask sb) (caseMask tb))
            && equalFold s' t'
          else if Ascii.eqb (caseMask sb) "S" then
            match t with
            | String b0 (String b1 t2) =>
                (code b0 =? 197)%N && (code b1 =? 191)%N && equalFold s' t2
            | _ => false
            end
          else if Ascii.eqb (caseMask sb) "K" then
            match t with
            | String b0 (String b1 (String b2 t3)) =>
                (code b0 =? 226)%N && (code b1 =? 132)%N && (code b2 =? 170)%N
                && equalFold s' t3
            | _ => false
            end
          else false
      end
  end.

(** [decodeState.saveError]: the first error is the one kept. *)
Definition saveError (saved new : option error) : option error :=
  match saved with
  | Some e => Some e
  | None => new
  end.

(** Decoding into a struct of type [T] whose fields [F] carry the names
    given by their [json] tags. *)
Section structs.

Context {T F : Type}.
Variable fields : list F.
Variable name : F -> string.
Variable store : F -> json -> T -> T * option error.

(** The field a key selects: one with that exact name, else the first
    whose name matches under folding. *)
Definition field_for (key : string) : option F :=
  match List.find (fun f => name f =? key) fields with
  | Some f => Some f
  | None => List.find (fun f => equalFold (name f) key) fields
  end.

Definition member_into_struct (st : T * option error) (kv : string * json)
  : T * option error :=
  match field_for (fst kv) with
  | None => st
  | Some f =>
      let '(t, e) := store f (snd kv) (fst st) in
      (t, saveError (snd st) e)
  end.

(** [decodeState.object] for a struct. *)
Definition object_into_struct (members : list (string * json)) (t : T)
  : T * option error :=
  fold_left member_into_struct members (t, None).

(** [decodeState.value] for a struct. *)
Definition value_into_struct (j : json) (t : T) : T * option error :=
  match j with
  | JObject members => object_into_struct members t
  | JNull => (t, None)
  | JArray _ => (t, Some (json_UnmarshalTypeError "array"))
  | JString _ => (t, Some (json_UnmarshalTypeError "string"))
  | JNumber _ => (t, Some (json_UnmarshalTypeError "number"))
  | JBool _ => (t, Some (json_UnmarshalTypeError "bool"))
  end.

End structs.

(** [decodeState.value] for a field of type [string]. *)
Definition value_into_string (j : json) (old : string)
  : string * option error :=
  match j with
  | JString s => (s, None)
  | JNull => (old, None)
  | JBool _ => (old, Some (json_UnmarshalTypeError "bool"))
  | JNumber _ => (old, Some (json_UnmarshalTypeError "number"))
  | JArray _ => (old, Some (json_UnmarshalTypeError "array"))
  | JObject _ => (old, Some (json_UnmarshalTypeError "object"))
  end.

(** [json.NewDecoder(body).Decode(&v)], given how a value is stored
    into [v]. *)
Definition Decode {T : Type} (into : json -> T -> T * option error)
    (body : string) (v : T) : T * option error :=
  match readValue body with
  | Err e => (v, Some e)
  | Ok j => into j v
  end.

End encoding_json.

(** ** Package [fmt] *)

Module fmt.

(** [fmt.Sprintf(format, arg)] for a format whose only verb is one [%s]
    and a string argument. *)
Fixpoint Sprintf_s (format arg : string) : string :=
  match format with
  | EmptyString => EmptyString
  | String "%" (String "s" rest) => arg +:+ rest
  | String c rest => String c (Sprintf_s rest arg)
  end.

End fmt.

(** ** The provider's data *)

(** [tfsdk.Config], seen through [Get(ctx, &target)]: what the call stores
    into the target and the diagnostics it returns. *)
Record Config (T : Type) : Type := mkConfig {
  Get_value : T;
  Get_diags : list Diagnostic
}.
Arguments mkConfig {T} _ _.
Arguments Get_value {T} _.
Arguments Get_diags {T} _.

(** [FireflyProviderModel] (provider.go) *)
Record FireflyProviderModel : Type := mkFireflyProviderModel {
  Endpoint : types_String;
  AccessToken : types_String
}.

(** [SysInfoDataSourceModel] (sysinfo_data_source.go) *)
Module model.
Record SysInfoDataSourceModel : Type := mkSysInfoDataSourceModel {
  Version : types_String;
  APIVersion : types_String;
  PHPVersion : types_String;
  OS : types_String;
  DBDriver : types_String
}.
End model.
Abbreviation SysInfoDataSourceModel := model.SysInfoDataSourceModel.

(** The anonymous struct [respData] that [Read] decodes into, with its
    [json] tags. *)
Module wire.

Record Data_t : Type := mkData {
  Version : string;
  APIVersion : string;
  PHPVersion : string;
  OS : string;
  DBDriver : string
}.

Record respData_t : Type := mkRespData {
  Data : Data_t
}.

Inductive Data_field : Type :=
| fVersion | fAPIVersion | fPHPVersion | fOS | fDBDriver.

#[global] Instance Data_field_eq_dec : EqDecision Data_field.
Proof. solve_decision. Defined.

Definition Data_fields : list Data_field :=
  [fVersion; fAPIVersion; fPHPVersion; fOS; fDBDriver].

Definition Data_tag (f : Data_field) : string :=
  match f with
  | fVersion => "version"
  | fAPIVersion => "api_version"
  | fPHPVersion => "php_version"
  | fOS => "os"
  | fDBDriver => "driver"
  end.

Definition Data_get (f : Data_field) (d : Data_t) : string :=
  match f with
  | fVersion => Version d
  | fAPIVersion => APIVersion d
  | fPHPVersion => PHPVersion d
  | fOS => OS d
  | fDBDriver => DBDriver d
  end.

Definition Data_set (f : Data_field) (v : string) (d : Data_t) : Data_t :=
  match f with
  | fVersion => mkData v (APIVersion d) (PHPVersion d) (OS d) (DBDriver d)
  | fAPIVersion => mkData (Version d) v (PHPVersion d) (OS d) (DBDriver d)
  | fPHPVersion => mkData (Version d) (APIVersion d) v (OS d) (DBDriver d)
  | fOS => mkData (Version d) (APIVersion d) (PHPVersion d) v (DBDriver d)
  | fDBDriver => mkData (Version d) (APIVersion d) (PHPVersion d) (OS d) v
  end.

Definition Data_store (f : Data_field) (j : encoding_json.json) (d : Data_t)
  : Data_t * option error :=
  let '(v, e) := encoding_json.value_into_string j (Data_get f d) in
  (Data_set f v d, e).

Definition into_Data (j : encoding_json.json) (d : Data_t)
  : Data_t * option error :=
  encoding_json.value_into_struct Data_fields Data_tag Data_store j d.

(** The outer struct has the single field [Data], tagged [data]. *)
Definition respData_store (_ : unit) (j : encoding_json.json) (v : respData_t)
  : respData_t * option error :=
  let '(d, e) := into_Data j (Data v) in (mkRespData d, e).

Definition into_respData (j : encoding_json.json) (v : respData_t)
  : respData_t * option error :=
  encoding_json.value_into_struct [tt] (fun _ => "data") respData_store j v.

(** The zero value of [var respData struct{...}]. *)
Definition zero : respData_t := mkRespData (mkData "" "" "" "" "").

End wire.

(** ** The provider's code *)

Section Provider.

Import net_http.

Context {W : Type}.

(** [http.DefaultTransport] *)
Variable DefaultTransport : RoundTripper W.

(** A value of type [any] as the framework passes provider data: a
    [*http.Client] (possibly a nil pointer) or a value of another dynamic
    type, of which only the type's name matters. *)
Inductive any : Type :=
| any_Client (p : option (Client W))
| any_other (T : string).

(** provider.go: [type fireflyTransport struct] *)
Record fireflyTransport : Type := mkFireflyTransport {
  baseURL : string;
  accessToken : string;
  rt : RoundTripper W
}.

(** provider.go: [func (t *fireflyTransport) RoundTrip(r *http.Request)] *)
Definition RoundTrip (t : fireflyTransport) : RoundTripper W :=
  fun r w =>
    match net_url.Parse (baseURL t) with
    | Err err => (Err err, r, w)
    | Ok parsed =>
        let r := set_URL (net_url.set_Scheme (Scheme parsed) (URL r)) r in
        let r := set_URL (net_url.set_Host (Host parsed) (URL r)) r in
        let r := set_Header
                   (Header_Add "Authorization"
                      (fmt.Sprintf_s "Bearer %s" (accessToken t)) (Header r)) r in
        rt t r w
    end.

(** [provider.ConfigureRequest] and [provider.ConfigureResponse] *)
Record provider_ConfigureRequest : Type := mkProviderConfigureRequest {
  provider_Config : Config FireflyProviderModel
}.

Record provider_ConfigureResponse : Type := mkProviderConfigureResponse {
  provider_Diagnostics : list Diagnostic;
  DataSourceData : option any;
  ResourceData : option any
}.

(** provider.go: [func (p *FireflyProvider) Configure].  The client is
    [http.DefaultClient] with its [Transport] field overwritten. *)
Definition FireflyProvider_Configure (req : provider_ConfigureRequest)
    (resp : provider_ConfigureResponse) : provider_ConfigureResponse :=
  let data := Get_value (provider_Config req) in
  let diags := diag.Append (provider_Diagnostics resp)
                           (Get_diags (provider_Config req)) in
  if diag.HasError diags
  then mkProviderConfigureResponse diags (DataSourceData resp) (ResourceData resp)
  else
    let client :=
      mkClient (Some (RoundTrip
        (mkFireflyTransport (ValueString (Endpoint data))
                            (ValueString (AccessToken data))
                            DefaultTransport))) in
    mkProviderConfigureResponse diags (Some (any_Client (Some client)))
                                (Some (any_Client (Some client))).

(** sysinfo_data_source.go: [type SysInfoDataSource struct] *)
Record SysInfoDataSource : Type := mkSysInfoDataSource {
  client : option (Client W)
}.

(** [func NewSysInfoDataSource()] *)
Definition NewSysInfoDataSource : SysInfoDataSource :=
  mkSysInfoDataSource None.

(** [datasource.ConfigureRequest] and [datasource.ConfigureResponse] *)
Record datasource_ConfigureRequest : Type := mkConfigureRequest {
  ProviderData : option any
}.

Record datasource_ConfigureResponse : Type := mkConfigureResponse {
  configure_Diagnostics : list Diagnostic
}.

(** sysinfo_data_source.go: [func (d *SysInfoDataSource) Configure]; the
    result holds [*d] and [*resp] as the call leaves them. *)
Definition SysInfoDataSource_Configure (d : SysInfoDataSource)
    (req : datasource_ConfigureRequest) (resp : datasource_ConfigureResponse)
  : SysInfoDataSource * datasource_ConfigureResponse :=
  match ProviderData req with
  | None => (d, resp)
  | Some (any_other T) =>
      (d, mkConfigureResponse
            (diag.AddError "Unexpected Data Source Configure Type"
               (fmt_Sprintf
                  "Expected *http.Client, got: %T. Please report this issue to the provider developers."
                  [arg_type T])
               (configure_Diagnostics resp)))
  | Some (any_Client client) => (mkSysInfoDataSource client, resp)
  end.

(** [datasource.ReadRequest] and [datasource.ReadResponse]; the state is
    [None] until a value is set. *)
Record ReadRequest : Type := mkReadRequest {
  read_Config : Config SysInfoDataSourceModel
}.

Record ReadResponse : Type := mkReadResponse {
  State : option SysInfoDataSourceModel;
  Diagnostics : list Diagnostic
}.

(** [resp.State.Set(ctx, &data)]: the model's five [tfsdk] tags are
    the five string attributes of the schema, so the value is stored and
    no diagnostic is returned. *)
Definition State_Set (data : SysInfoDataSourceModel)
    (state : option SysInfoDataSourceModel)
  : option SysInfoDataSourceModel * list Diagnostic :=
  (Some data, []).

(** A run of provider code that calls [http.Client.Do]: it returns,
    or dereferences a nil pointer, or calls [c.Do(r)] and goes on with
    the pair [(httpResp, err)]. *)
Inductive nil_pointer : Type :=
| nil_Request
| nil_Client.

Inductive proc (A : Type) : Type :=
| Done (a : A)
| Panic (cause : nil_pointer)
| Do (c : Client W) (r : Request) (k : result Response -> proc A).
Arguments Done {A} a.
Arguments Panic {A} cause.
Arguments Do {A} c r k.

(** sysinfo_data_source.go: [func (d *SysInfoDataSource) Read]; the result
    is [*resp] as the call leaves it.  The [tflog.Trace] calls and the
    deferred [Body.Close] do not touch [resp]. *)
Definition Read (d : SysInfoDataSource) (req : ReadRequest)
    (resp : ReadResponse) : proc ReadResponse :=
  let data := Get_value (read_Config req) in
  let diags := diag.Append (Diagnostics resp) (Get_diags (read_Config req)) in
  if diag.HasError diags then Done (mkReadResponse (State resp) diags)
  else
    (* httpReq, _ := http.NewRequest("GET", "/api/v1/about", nil) *)
    match NewRequest "GET" "/api/v1/about" with
    | Err _ => Panic nil_Request
    | Ok httpReq =>
        match client d with
        | None => Panic nil_Client
        | Some c =>
            Do c httpReq (fun result =>
              match result with
              | Err err =>
                  Done (mkReadResponse (State resp)
                          (diag.AddError "Client Error"
                             (fmt_Sprintf "Unable to read example, got error: %s"
                                          [arg_error err])
                             diags))
              | Ok httpResp =>
                  let '(respData, _) :=
                    encoding_json.Decode wire.into_respData
                                         (RespBody httpResp) wire.zero in
                  let data :=
                    model.mkSysInfoDataSourceModel
                      (StringValue (wire.Version (wire.Data respData)))
                      (StringValue (wire.APIVersion (wire.Data respData)))
                      (StringValue (wire.PHPVersion (wire.Data respData)))
                      (StringValue (wire.OS (wire.Data respData)))
                      (StringValue (wire.DBDriver (wire.Data respData))) in
                  let '(state, set_diags) := State_Set data (State resp) in
                  Done (mkReadResponse state (diag.Append diags set_diags))
              end)
        end
    end.

(** *** Running a [proc] against a client implementation *)

Inductive outcome (A : Type) : Type :=
| Returned (a : A)
| Panicked (cause : nil_pointer).
Arguments Returned {A} a.
Arguments Panicked {A} cause.

(** [run serve p w]: the run [p] with the calls [c.Do(r)] answered by
    [serve] from the state [w]. *)
Fixpoint run {A : Type}
    (serve : Client W -> Request -> W -> result Response * W)
    (p : proc A) (w : W) : outcome A * W :=
  match p with
  | Done a => (Returned a, w)
  | Panic cause => (Panicked cause, w)
  | Do c r k =>
      let '(result, w') := serve c r w in
      run serve (k result) w'
  end.

(** The calls [c.Do(r)] that a run makes when it is answered by [serve],
    in order. *)
Fixpoint calls {A : Type}
    (serve : Client W -> Request -> W -> result Response * W)
    (p : proc A) (w : W) : list Request :=
  match p with
  | Done _ | Panic _ => []
  | Do c r k =>
      let '(result, w') := serve c r w in
      r :: calls serve (k result) w'
  end.

(** [urlErrorOp(method)]; [ascii.ToLower] gives up on a text that is not
    printable ASCII. *)
Definition urlErrorOp (method : string) : string :=
  match method with
  | EmptyString => "Get"
  | String c rest =>
      if all_bytes (between " " "~") rest
      then String c (go_strings.ToLower rest)
      else method
  end.

(** [http.Client.Do] for an exchange that the service answers itself:
    the request goes once through the client's transport
    ([http.DefaultTransport] when the field is nil), and an error comes
    back wrapped in a [url.Error].  Responses that make the client issue
    a further request (redirects, see [redirected]) and requests whose URL
    carries user information (for which the client adds basic credentials
    of its own) are outside this description. *)
Definition Client_Do (c : Client W) (r : Request) (w : W)
  : result Response * W :=
  let transport := default DefaultTransport (Transport c) in
  let '(result, r', w') := transport r w in
  (match result with
   | Ok resp => Ok resp
   | Err err => Err (client_Error (urlErrorOp (Method r')) (URL r') err)
   end, w').

End Provider.
Arguments Done {W A} a.
Arguments Panic {W A} cause.
Arguments Do {W A} c r k.
Arguments Returned {A} a.
Arguments Panicked {A} cause.

(** provider.go, [Schema]: the validator of the [endpoint] attribute,
    [regexp.MustCompile(`^https?://[^:/]+(:\d+)?$`)].  The host part has no
    colon, so a colon after it can only open the port group. *)
Definition endpoint_pattern (s : string) : bool :=
  let after_scheme :=
    if go_strings.HasPrefix s "http://" then Some (go_strings.slice_from 7 s)
    else if go_strings.HasPrefix s "https://" then Some (go_strings.slice_from 8 s)
    else None in
  match after_scheme with
  | None => false
  | Some rest =>
      let '(host, port, colon) := go_strings.Cut rest ":" in
      negb (host =? "")
      && all_bytes (fun c => negb (Ascii.eqb c "/")) host
      && (if colon then negb (port =? "") && all_bytes is_digit port else true)
  end.

(** ** Vocabulary of the statements *)

(** A base URL [scheme://host[:port]]: the scheme is [http] or [https],
    the host is a non-empty registered name written without escapes (the
    unreserved bytes and the sub-delimiters of RFC 3986), and the port, if
    there is one, is a colon followed by digits. *)
Definition reg_name_byte (c : ascii) : bool :=
  is_alnum c || one_of "-._~!$&'()*+,;=" c.

(** The bytes of [host[:port]]. *)
Definition authority_byte (c : ascii) : bool :=
  reg_name_byte c || Ascii.eqb c ":".

(** What [url.Parse] looks for in a byte of the authority. *)
Definition plain_byte (c : ascii) : bool :=
  other_than "#" c && other_than "?" c && other_than "/" c
  && other_than "@" c && other_than "%" c && negb (net_url.isCTL c)
  && (code c <? 128)%N && negb (net_url.shouldEscape c net_url.encodeHost).

Definition base_url (scheme host port : string) : string :=
  scheme +:+ "://" +:+ host +:+ port.

Definition valid_base (scheme host port : string) : bool :=
  ((scheme =? "http") || (scheme =? "https"))
  && negb (host =? "") && all_bytes reg_name_byte host
  && net_url.validOptionalPort port.

(** The request that [Read] builds:
    [http.NewRequest("GET", "/api/v1/about", nil)]. *)
Definition about_request : net_http.Request :=
  net_http.mkRequest "GET"
    (mkURL "" "" None "" "/api/v1/about" "" false false "" "" "")
    "HTTP/1.1" ∅ None "".

(** The diagnostics of [resp] once [Read] has appended those of
    [req.Config.Get]. *)
Definition read_diags (req : ReadRequest) (resp : ReadResponse)
  : list Diagnostic :=
  diag.Append (Diagnostics resp) (Get_diags (read_Config req)).

(** The members of an object whose key selects the field called [name]. *)
Definition members_named (name : string)
    (members : list (string * encoding_json.json)) : list encoding_json.json :=
  map snd (List.filter (fun kv => encoding_json.equalFold name (fst kv)) members).

Definition sole {A : Type} (l : list A) : option A :=
  match l with
  | [x] => Some x
  | _ => None
  end.

Definition string_member (name : string)
    (members : list (string * encoding_json.json)) : option string :=
  match sole (members_named name members) with
  | Some (encoding_json.JString s) => Some s
  | _ => None
  end.

(** A well-formed envelope: an object with one member [data], itself an
    object with one member for each of the five names, each a string.
    Other members may be present. *)
Definition as_envelope (j : encoding_json.json) : option wire.Data_t :=
  match j with
  | encoding_json.JObject top =>
      match sole (members_named "data" top) with
      | Some (encoding_json.JObject members) =>
          match string_member "version" members,
                string_member "api_version" members,
                string_member "php_version" members,
                string_member "os" members,
                string_member "driver" members with
          | Some v, Some a, Some p, Some o, Some d =>
              Some (wire.mkData v a p o d)
          | _, _, _, _, _ => None
          end
      | _ => None
      end
  | _ => None
  end.

(** The record that [Read] stores for decoded data. *)
Definition record_of (d : wire.Data_t) : SysInfoDataSourceModel :=
  model.mkSysInfoDataSourceModel
    (StringValue (wire.Version d)) (StringValue (wire.APIVersion d))
    (StringValue (wire.PHPVersion d)) (StringValue (wire.OS d))
    (StringValue (wire.DBDriver d)).

(** ** A concrete setting for the examples *)

Module example.
Import net_http.

(** A text with ['] written for the byte 0x22. *)
Fixpoint quoted (s : string) : string :=
  match s with
  | EmptyString => EmptyString
  | String c s' =>
      String (if Ascii.eqb c "'" then "034"%char else c) (quoted s')
  end.

(** The state of the network: the requests put on the wire so far. *)
Definition wire_log : Type := list Request.

(** A network whose service answers every request with status 200 and the
    given body. *)
Definition service (body : string) : RoundTripper wire_log :=
  fun r w => (Ok (mkResponse 200 ∅ body), r, (w ++ [r])%list).

(** A network on which every connection is refused. *)
Definition refused : RoundTripper wire_log :=
  fun r w => (Err (errors_New "connect: connection refused"), r, (w ++ [r])%list).

Definition provider_request (endpoint token : string)
  : provider_ConfigureRequest :=
  mkProviderConfigureRequest
    (mkConfig (mkFireflyProviderModel (StringValue endpoint) (StringValue token))
              []).

Definition provider_response (network : RoundTripper wire_log)
    (endpoint token : string) : provider_ConfigureResponse (W := wire_log) :=
  FireflyProvider_Configure network (provider_request endpoint token)
    (mkProviderConfigureResponse [] None None).

(** The data source after the provider and then the data source have been
    configured. *)
Definition data_source (network : RoundTripper wire_log)
    (endpoint token : string) : SysInfoDataSource (W := wire_log) :=
  fst (SysInfoDataSource_Configure NewSysInfoDataSource
         (mkConfigureRequest (DataSourceData (provider_response network endpoint token)))
         (mkConfigureResponse [])).

Definition read_request : ReadRequest :=
  mkReadRequest
    (mkConfig (model.mkSysInfoDataSourceModel StringNull StringNull StringNull
                                              StringNull StringNull) []).

Definition read_response : ReadResponse := mkReadResponse None [].

(** One fetch through the configured client. *)
Definition fetch (network : RoundTripper wire_log) (endpoint token : string)
    (w : wire_log) : outcome ReadResponse * wire_log :=
  run (Client_Do network)
      (Read (data_source network endpoint token) read_request read_response) w.

(** The client that the provider hands to the data source. *)
Definition client (network : RoundTripper wire_log) (endpoint token : string)
  : Client wire_log :=
  mkClient (Some (RoundTrip (mkFireflyTransport endpoint token network))).

(** A request that already carries credentials. *)
Definition signed_request : Request :=
  set_Header {[ "Authorization" := ["Basic Zm9vOmJhcg=="] ]} about_request.

Definition about_body : string :=
  quoted "{'data':{'version':'6.1.0','api_version':'2.0.0','php_version':'8.2','os':'Linux','driver':'mysql'}}".

Definition truncated_body : string :=
  quoted "{'data':{'version':'6.1.0','api_ver".

Definition misshapen_body : string :=
  quoted "{'data':{'version':7,'os':'Linux'}}".

End example.


(** ** Vocabulary of the further properties *)

(** The request of [Read] as the transport of the base URL
    [scheme://host[:port]] passes it on. *)
Definition addressed_request (scheme host port token : string)
  : net_http.Request :=
  net_http.mkRequest "GET"
    (mkURL scheme "" None (host +:+ port) "/api/v1/about" "" false false "" "" "")
    "HTTP/1.1" {[ "Authorization" := ["Bearer " +:+ token] ]} None "".

(** The last string among the members whose key selects the field called
    [name]; members of that name with another kind of value are passed
    over. *)
Definition later_string (name : string) (found : option string)
    (kv : string * encoding_json.json) : option string :=
  if encoding_json.equalFold name (fst kv) then
    match snd kv with
    | encoding_json.JString s => Some s
    | _ => found
    end
  else found.

Definition last_string (name : string)
    (members : list (string * encoding_json.json)) : option string :=
  fold_left (later_string name) members None.

(** The body of a response says nothing to the decoder: it is not JSON,
    or its first value is not an object, or the object has no member
    [data]. *)
Definition no_data (body : string) : bool :=
  match encoding_json.readValue body with
  | Err _ => true
  | Ok (encoding_json.JObject top) =>
      match members_named "data" top with
      | [] => true
      | _ => false
      end
  | Ok _ => true
  end.

(** A byte that a JSON string literal holds as it is: printable ASCII
    other than the quote and the backslash. *)
Definition literal_byte (c : ascii) : bool :=
  between " " "~" c
  && negb (Ascii.eqb c encoding_json.double_quote)
  && negb (Ascii.eqb c encoding_json.back_slash).

(** A string literal for a text of such bytes, and the compact text of an
    envelope. *)
Definition literal (s : string) : string :=
  String encoding_json.double_quote (s +:+ String encoding_json.double_quote "").

Definition envelope_text (e : wire.Data_t) : string :=
  "{" +:+ literal "data" +:+ ":{"
  +:+ literal "version" +:+ ":" +:+ literal (wire.Version e) +:+ ","
  +:+ literal "api_version" +:+ ":" +:+ literal (wire.APIVersion e) +:+ ","
  +:+ literal "php_version" +:+ ":" +:+ literal (wire.PHPVersion e) +:+ ","
  +:+ literal "os" +:+ ":" +:+ literal (wire.OS e) +:+ ","
  +:+ literal "driver" +:+ ":" +:+ literal (wire.DBDriver e) +:+ "}}".

Definition literal_data (e : wire.Data_t) : bool :=
  all_bytes literal_byte (wire.Version e)
  && all_bytes literal_byte (wire.APIVersion e)
  && all_bytes literal_byte (wire.PHPVersion e)
  && all_bytes literal_byte (wire.OS e)
  && all_bytes literal_byte (wire.DBDriver e).

(** The data source as the provider's [Configure] and then its own leave
    it, from an empty response. *)
Definition configured {W : Type} (DefaultTransport : net_http.RoundTripper W)
    (endpoint token : types_String) : SysInfoDataSource (W := W) :=
  fst (SysInfoDataSource_Configure NewSysInfoDataSource
         (mkConfigureRequest
            (DataSourceData
               (FireflyProvider_Configure DefaultTransport
                  (mkProviderConfigureRequest
                     (mkConfig (mkFireflyProviderModel endpoint token) []))
                  (mkProviderConfigureResponse [] None None))))
         (mkConfigureResponse [])).

(** The value that the text of an envelope stands for. *)
Definition envelope_json (e : wire.Data_t) : encoding_json.json :=
  encoding_json.JObject
    [("data",
      encoding_json.JObject
        [("version", encoding_json.JString (wire.Version e));
         ("api_version", encoding_json.JString (wire.APIVersion e));
         ("php_version", encoding_json.JString (wire.PHPVersion e));
         ("os", encoding_json.JString (wire.OS e));
         ("driver", encoding_json.JString (wire.DBDriver e))])].

(** A number that ends with the input is the one value that more input
    can change. *)
Definition open_number (j : encoding_json.json) (rest : string) : bool :=
  match j with
  | encoding_json.JNumber _ => rest =? ""
  | _ => false
  end.


(** ** The client as the shared object that it is

    [http.DefaultClient] is a pointer to the default client of the process.
    The provider's [Configure] copies the pointer and assigns to the
    [Transport] field of the client that it points to; the data source
    keeps the pointer and follows it when [Read] calls [Do].  Clients are
    held by address; a pointer is an address or nil, and an address that
    holds no client is followed like the nil pointer. *)

Module shared.
Import net_http.

(** The clients of the process by address. *)
Abbreviation clients W := (gmap nat (Client W)).

Section Shared.

Context {W : Type}.

(** [http.DefaultTransport] *)
Variable DefaultTransport : RoundTripper W.

(** The value of the variable [http.DefaultClient]. *)
Variable DefaultClient : nat.

(** Provider data: a pointer to a client (possibly nil) or a value of
    another dynamic type. *)
Inductive any : Type :=
| any_Client (p : option nat)
| any_other (T : string).

Record provider_ConfigureResponse : Type := mkProviderConfigureResponse {
  provider_Diagnostics : list Diagnostic;
  DataSourceData : option any;
  ResourceData : option any
}.

(** provider.go: [func (p *FireflyProvider) Configure], with the clients
    of the process as it finds and leaves them. *)
Definition FireflyProvider_Configure (req : provider_ConfigureRequest)
    (resp : provider_ConfigureResponse) (h : clients W)
  : outcome provider_ConfigureResponse * clients W :=
  let data := Get_value (provider_Config req) in
  let diags := diag.Append (provider_Diagnostics resp)
                           (Get_diags (provider_Config req)) in
  if diag.HasError diags
  then (Returned (mkProviderConfigureResponse diags (DataSourceData resp)
                                              (ResourceData resp)), h)
  else
    (* client := http.DefaultClient *)
    let client := DefaultClient in
    (* client.Transport = &fireflyTransport{...}; [Transport] is the
       one field that a [Client] holds here *)
    match h !! client with
    | None => (Panicked nil_Client, h)
    | Some _ =>
        let transport :=
          RoundTrip (mkFireflyTransport (ValueString (Endpoint data))
                                        (ValueString (AccessToken data))
                                        DefaultTransport) in
        (Returned (mkProviderConfigureResponse diags
                     (Some (any_Client (Some client)))
                     (Some (any_Client (Some client)))),
         <[ client := mkClient (Some transport) ]> h)
    end.

(** The data source that a pointer to a client stands for, if the
    pointer is followed now. *)
Definition pointee (h : clients W) (p : option nat) : SysInfoDataSource (W := W) :=
  mkSysInfoDataSource (match p with
                       | Some a => h !! a
                       | None => None
                       end).

Record SysInfoDataSource : Type := mkSysInfoDataSource {
  client : option nat
}.

Definition NewSysInfoDataSource : SysInfoDataSource :=
  mkSysInfoDataSource None.

Record datasource_ConfigureRequest : Type := mkConfigureRequest {
  ProviderData : option any
}.

(** sysinfo_data_source.go: [func (d *SysInfoDataSource) Configure] *)
Definition SysInfoDataSource_Configure (d : SysInfoDataSource)
    (req : datasource_ConfigureRequest) (resp : datasource_ConfigureResponse)
  : SysInfoDataSource * datasource_ConfigureResponse :=
  match ProviderData req with
  | None => (d, resp)
  | Some (any_other T) =>
      (d, mkConfigureResponse
            (diag.AddError "Unexpected Data Source Configure Type"
               (fmt_Sprintf
                  "Expected *http.Client, got: %T. Please report this issue to the provider developers."
                  [arg_type T])
               (configure_Diagnostics resp)))
  | Some (any_Client client) => (mkSysInfoDataSource client, resp)
  end.

(** sysinfo_data_source.go: [func (d *SysInfoDataSource) Read]; the call
    [d.client.Do] reads the client that the pointer leads to. *)
Definition Read (h : clients W) (d : SysInfoDataSource) (req : ReadRequest)
    (resp : ReadResponse) : proc (W := W) ReadResponse :=
  Read (pointee h (client d)) req resp.

End Shared.

End shared.

(** * Properties *)

(** ** Bytes and strings *)

(** A statement about one byte, checked on the 256 bytes. *)
Ltac each_byte c :=
  destruct c as [[] [] [] [] [] [] [] []]; vm_compute;
  try reflexivity; try (intros H; first [exact H | discriminate H]).

Lemma append_nil_r (a : string) : a +:+ "" = a.
Proof.
  induction a as [|x a IH]; [reflexivity|].
  change (String x a +:+ "") with (String x (a +:+ "")). now rewrite IH.
Qed.

Lemma append_assoc (a b c : string) : (a +:+ b) +:+ c = a +:+ (b +:+ c).
Proof.
  induction a as [|x a IH]; [reflexivity|].
  change (String x ((a +:+ b) +:+ c) = String x (a +:+ (b +:+ c))).
  now rewrite IH.
Qed.

Lemma all_bytes_app p s1 s2 :
  all_bytes p (s1 +:+ s2) = all_bytes p s1 && all_bytes p s2.
Proof.
  induction s1 as [|c s1 IH]; simpl; [reflexivity|].
  rewrite IH. apply andb_assoc.
Qed.

Lemma all_bytes_impl (p q : ascii -> bool) s :
  (forall c, p c = true -> q c = true) ->
  all_bytes p s = true -> all_bytes q s = true.
Proof.
  intros Hpq. induction s as [|c s IH]; simpl; [reflexivity|].
  intros [Hc Hs]%andb_prop. rewrite (Hpq _ Hc), (IH Hs). reflexivity.
Qed.

Section absent_byte.

Import go_strings.
Variable sep : ascii.

Lemma Cut_absent s :
  all_bytes (other_than sep) s = true -> Cut s sep = (s, EmptyString, false).
Proof.
  induction s as [|c s IH]; simpl; [reflexivity|].
  unfold other_than at 1. intros [Hc Hs]%andb_prop.
  apply negb_true_iff in Hc. rewrite Hc, (IH Hs). reflexivity.
Qed.

Lemma IndexByte_absent s :
  all_bytes (other_than sep) s = true -> IndexByte s sep = None.
Proof.
  induction s as [|c s IH]; simpl; [reflexivity|].
  unfold other_than at 1. intros [Hc Hs]%andb_prop.
  apply negb_true_iff in Hc. rewrite Hc, (IH Hs). reflexivity.
Qed.

Lemma LastIndexByte_absent s :
  all_bytes (other_than sep) s = true -> LastIndexByte s sep = None.
Proof.
  induction s as [|c s IH]; simpl; [reflexivity|].
  unfold other_than at 1. intros [Hc Hs]%andb_prop.
  apply negb_true_iff in Hc. rewrite Hc, (IH Hs). reflexivity.
Qed.

Lemma HasSuffix_absent s :
  all_bytes (other_than sep) s = true -> HasSuffix s sep = false.
Proof.
  induction s as [|c s IH]; [reflexivity|].
  simpl. unfold other_than at 1. intros [Hc Hs]%andb_prop.
  apply negb_true_iff in Hc. destruct s; [exact Hc | exact (IH Hs)].
Qed.

(** The last separator of [h ++ sep :: t] is the one shown when [t] has
    none. *)
Lemma LastIndexByte_app h t :
  all_bytes (other_than sep) t = true ->
  LastIndexByte (h +:+ String sep t) sep = Some (String.length h).
Proof.
  intros Ht. induction h as [|c h IH]; simpl.
  - rewrite (LastIndexByte_absent _ Ht), Ascii.eqb_refl. reflexivity.
  - rewrite IH. reflexivity.
Qed.

End absent_byte.

Lemma Cut_at sep h t :
  all_bytes (other_than sep) h = true ->
  go_strings.Cut (h +:+ String sep t) sep = (h, t, true).
Proof.
  induction h as [|c h IH]; intros Hh.
  - simpl. now rewrite Ascii.eqb_refl.
  - simpl in Hh. apply andb_prop in Hh as [Hc Hh].
    unfold other_than in Hc. apply negb_true_iff in Hc.
    change (String c h +:+ String sep t) with (String c (h +:+ String sep t)).
    simpl. now rewrite Hc, (IH Hh).
Qed.

Lemma slice_from_app h t :
  go_strings.slice_from (String.length h) (h +:+ t) = t.
Proof. induction h as [|c h IH]; simpl; [destruct t|]; auto. Qed.

(** ** [url.Parse] on base URLs *)

Section base_urls.

Import go_strings net_url.

Lemma reg_name_byte_authority c :
  reg_name_byte c = true ->
  authority_byte c && other_than ":" c && other_than "[" c = true.
Proof. each_byte c. Qed.

Lemma digit_authority c :
  is_digit c = true -> authority_byte c && other_than ":" c = true.
Proof. each_byte c. Qed.

Lemma authority_byte_plain c : authority_byte c = true -> plain_byte c = true.
Proof. each_byte c. Qed.

Lemma unescape_step c s mode :
  Ascii.eqb c "%" = false ->
  unescape (String c s) mode =
  if host_or_zone mode && (code c <? 128)%N && shouldEscape c encodeHost
  then Err (url_InvalidHostError (String c EmptyString))
  else match unescape s mode with
       | Ok t => Ok (String (if Ascii.eqb c "+" && is_query_component mode
                             then " "%char else c) t)
       | Err e => Err e
       end.
Proof.
  intros H.
  destruct c as [[] [] [] [] [] [] [] []]; try reflexivity;
    vm_compute in H; discriminate H.
Qed.

Lemma plain_byte_spec c :
  plain_byte c = true ->
  other_than "#" c = true /\ other_than "?" c = true /\ other_than "/" c = true
  /\ other_than "@" c = true /\ Ascii.eqb c "%" = false /\ isCTL c = false
  /\ shouldEscape c encodeHost = false.
Proof.
  unfold plain_byte. intros H.
  repeat (apply andb_prop in H; destruct H as [H ?]).
  repeat split; auto using negb_true_iff.
  - unfold other_than in *. now apply negb_true_iff.
  - now apply negb_true_iff.
  - now apply negb_true_iff.
Qed.

Lemma unescape_host_plain s :
  all_bytes plain_byte s = true -> unescape s encodeHost = Ok s.
Proof.
  induction s as [|c s IH]; [reflexivity|].
  simpl all_bytes. intros [Hc Hs]%andb_prop.
  destruct (plain_byte_spec _ Hc) as (_ & _ & _ & _ & Hpct & _ & Hesc).
  rewrite unescape_step by exact Hpct.
  rewrite Hesc, andb_false_r, (IH Hs). simpl.
  rewrite andb_false_r. reflexivity.
Qed.

Lemma HasPrefix_nil s : HasPrefix s EmptyString = true.
Proof. now destruct s. Qed.

Lemma HasPrefix_cons c s p :
  HasPrefix (String c s) (String c p) = HasPrefix s p.
Proof. unfold HasPrefix. simpl. now destruct (ascii_dec c c). Qed.

Lemma HasPrefix_byte c s x :
  HasPrefix (String c s) (String x EmptyString) = Ascii.eqb x c.
Proof.
  unfold HasPrefix. simpl. destruct (ascii_dec x c) as [->|Hne].
  - rewrite Ascii.eqb_refl. now destruct s.
  - symmetry. now apply Ascii.eqb_neq.
Qed.

(** The host and port of a valid base URL, as one authority. *)
Lemma authority_bytes host port :
  all_bytes reg_name_byte host = true -> validOptionalPort port = true ->
  all_bytes plain_byte (host +:+ port) = true.
Proof.
  intros Hh Hp. rewrite all_bytes_app. apply andb_true_intro. split.
  - revert Hh. apply all_bytes_impl. intros c Hc.
    apply authority_byte_plain.
    apply reg_name_byte_authority in Hc.
    now repeat (apply andb_prop in Hc; destruct Hc as [Hc ?]).
  - destruct port as [|c digits]; [reflexivity|].
    simpl in Hp. apply andb_prop in Hp as [Hc Hd].
    apply Ascii.eqb_eq in Hc as ->. simpl. 
    revert Hd. apply all_bytes_impl. intros c Hc.
    apply authority_byte_plain.
    apply digit_authority in Hc.
    now repeat (apply andb_prop in Hc; destruct Hc as [Hc ?]).
Qed.

Lemma parseHost_plain host port :
  host <> EmptyString ->
  all_bytes reg_name_byte host = true -> validOptionalPort port = true ->
  parseHost (host +:+ port) = Ok (host +:+ port).
Proof.
  intros Hne Hh Hp.
  pose proof (authority_bytes _ _ Hh Hp) as Hplain.
  unfold parseHost.
  destruct host as [|c host]; [congruence|]. clear Hne.
  change (String c host +:+ port) with (String c (host +:+ port)) at 1.
  rewrite HasPrefix_byte.
  assert (Hc : Ascii.eqb "[" c = false).
  { simpl in Hh. apply andb_prop in Hh as [Hh _].
    apply reg_name_byte_authority in Hh.
    apply andb_prop in Hh as [_ Hh]. unfold other_than in Hh.
    apply negb_true_iff in Hh. now rewrite Ascii.eqb_sym. }
  rewrite Hc.
  assert (Hcolon : all_bytes (other_than ":") (String c host) = true).
  { revert Hh. apply all_bytes_impl. intros x Hx.
    apply reg_name_byte_authority in Hx.
    apply andb_prop in Hx as [Hx _]. now apply andb_prop in Hx as [_ Hx]. }
  destruct port as [|p digits].
  - rewrite LastIndexByte_absent.
    + now apply unescape_host_plain.
    + rewrite all_bytes_app, Hcolon. reflexivity.
  - simpl in Hp. apply andb_prop in Hp as [Hp Hd].
    apply Ascii.eqb_eq in Hp as ->.
    rewrite LastIndexByte_app.
    + assert (Hv : validOptionalPort (String ":" digits) = true)
        by (simpl; exact Hd).
      rewrite slice_from_app, Hv. cbn [negb].
      now apply unescape_host_plain.
    + revert Hd. apply all_bytes_impl. intros x Hx.
      apply digit_authority in Hx. now apply andb_prop in Hx as [_ Hx].
Qed.

Lemma parseAuthority_plain host port :
  host <> EmptyString ->
  all_bytes reg_name_byte host = true -> validOptionalPort port = true ->
  parseAuthority (host +:+ port) = Ok (None, host +:+ port).
Proof.
  intros Hne Hh Hp. unfold parseAuthority.
  rewrite LastIndexByte_absent.
  - rewrite parseHost_plain by assumption. reflexivity.
  - generalize (authority_bytes _ _ Hh Hp). apply all_bytes_impl.
    intros c Hc. now apply plain_byte_spec in Hc.
Qed.


Lemma parse_after_scheme whole scheme a :
  stringContainsCTLByte whole = false ->
  (whole =? "*") = false ->
  getScheme whole = Ok (scheme, String "/" (String "/" a)) ->
  ToLower scheme = scheme ->
  (scheme =? "") = false ->
  all_bytes plain_byte a = true ->
  parseAuthority a = Ok (None, a) ->
  parse whole false
  = Ok (mkURL scheme "" None a "" "" false false "" "" "").
Proof.
  intros Hctl Hstar Hscheme Hlow Hnonempty Hplain Ha.
  assert (Hq : all_bytes (other_than "?") (String "/" (String "/" a)) = true).
  { simpl. revert Hplain. apply all_bytes_impl. intros c Hc.
    now apply plain_byte_spec in Hc. }
  assert (Hslash : all_bytes (other_than "/") a = true).
  { revert Hplain. apply all_bytes_impl. intros c Hc.
    now apply plain_byte_spec in Hc. }
  unfold parse.
  rewrite Hctl, Hstar, andb_false_r, Hscheme, Hlow.
  rewrite (HasSuffix_absent _ _ Hq), (Cut_absent _ _ Hq).
  cbn [andb]. cbv iota beta.
  change (HasPrefix (String "/" (String "/" a)) "/") with true.
  rewrite Hnonempty. cbn [negb andb orb].
  rewrite !HasPrefix_cons, HasPrefix_nil.
  change (slice_from 2 (String "/" (String "/" a))) with a.
  rewrite (IndexByte_absent _ _ Hslash). cbv iota beta.
  rewrite Ha. reflexivity.
Qed.

Lemma parse_base scheme host port :
  valid_base scheme host port = true ->
  parse (base_url scheme host port) false
  = Ok (mkURL scheme "" None (host +:+ port) "" "" false false "" "" "").
Proof.
  unfold valid_base. intros H.
  apply andb_prop in H as [H Hp]. apply andb_prop in H as [H Hh].
  apply andb_prop in H as [Hs Hne].
  apply negb_true_iff, String.eqb_neq in Hne.
  pose proof (authority_bytes _ _ Hh Hp) as Hplain.
  pose proof (parseAuthority_plain _ _ Hne Hh Hp) as Ha.
  assert (Hctl : all_bytes (fun c => negb (isCTL c)) (host +:+ port) = true).
  { revert Hplain. apply all_bytes_impl. intros c Hc.
    apply plain_byte_spec in Hc as (_ & _ & _ & _ & _ & Hc & _).
    now rewrite Hc. }
  unfold base_url.
  apply orb_prop in Hs as [Hs|Hs]; apply String.eqb_eq in Hs; subst scheme;
    apply parse_after_scheme; try reflexivity; try assumption;
    unfold stringContainsCTLByte;
    do 2 rewrite all_bytes_app; rewrite Hctl; reflexivity.
Qed.

Lemma Parse_base scheme host port :
  valid_base scheme host port = true ->
  Parse (base_url scheme host port)
  = Ok (mkURL scheme "" None (host +:+ port) "" "" false false "" "" "").
Proof.
  intros H. unfold Parse.
  assert (Hhash : all_bytes (other_than "#") (base_url scheme host port) = true).
  { unfold valid_base in H.
    apply andb_prop in H as [H Hp]. apply andb_prop in H as [H Hh].
    apply andb_prop in H as [Hs _].
    assert (Ha : all_bytes (other_than "#") (host +:+ port) = true).
    { generalize (authority_bytes _ _ Hh Hp). apply all_bytes_impl.
      intros c Hc. now apply plain_byte_spec in Hc. }
    unfold base_url.
    apply orb_prop in Hs as [Hs|Hs]; apply String.eqb_eq in Hs; subst scheme;
      do 2 rewrite all_bytes_app; rewrite Ha; reflexivity. }
  rewrite (Cut_absent _ _ Hhash), (parse_base _ _ _ H). reflexivity.
Qed.

(** The base URLs of the statements are among the endpoints that the
    schema's validator lets through. *)
Lemma valid_base_matches_pattern scheme host port :
  valid_base scheme host port = true -> port <> ":" ->
  endpoint_pattern (base_url scheme host port) = true.
Proof.
  unfold valid_base. intros H Hport.
  apply andb_prop in H as [H Hp]. apply andb_prop in H as [H Hh].
  apply andb_prop in H as [Hs Hne].
  assert (Hslash : all_bytes (fun c => negb (Ascii.eqb c "/")) host = true).
  { revert Hh. apply all_bytes_impl. intros c Hc.
    apply reg_name_byte_authority in Hc.
    apply andb_prop in Hc as [Hc _]. apply andb_prop in Hc as [Hc _].
    apply authority_byte_plain, plain_byte_spec in Hc.
    now destruct Hc as (_ & _ & Hc & _). }
  assert (Hcolon : all_bytes (other_than ":") host = true).
  { revert Hh. apply all_bytes_impl. intros c Hc.
    apply reg_name_byte_authority in Hc.
    apply andb_prop in Hc as [Hc _]. now apply andb_prop in Hc as [_ Hc]. }
  assert (Hrest :
    (let '(h, p, colon) := Cut (host +:+ port) ":" in
     negb (h =? "") && all_bytes (fun c => negb (Ascii.eqb c "/")) h
     && (if colon then negb (p =? "") && all_bytes is_digit p else true))
    = true).
  { destruct port as [|c digits].
    - rewrite append_nil_r, (Cut_absent _ _ Hcolon), Hne, Hslash. reflexivity.
    - simpl in Hp. apply andb_prop in Hp as [Hc Hd].
      apply Ascii.eqb_eq in Hc as ->.
      rewrite (Cut_at _ _ _ Hcolon), Hne, Hslash, Hd.
      destruct digits; [congruence|reflexivity]. }
  unfold base_url, endpoint_pattern.
  apply orb_prop in Hs as [Hs|Hs]; apply String.eqb_eq in Hs; subst scheme.
  - change ("http" +:+ "://" +:+ host +:+ port)
      with ("http://" +:+ (host +:+ port)).
    change ("http://" +:+ (host +:+ port))
      with (String "h" (String "t" (String "t" (String "p" (String ":"
             (String "/" (String "/" (host +:+ port)))))))).
    rewrite !HasPrefix_cons, HasPrefix_nil. exact Hrest.
  - change ("https" +:+ "://" +:+ host +:+ port)
      with (String "h" (String "t" (String "t" (String "p" (String "s"
             (String ":" (String "/" (String "/" (host +:+ port))))))))).
    change (HasPrefix _ "http://") with false.
    rewrite !HasPrefix_cons, HasPrefix_nil. exact Hrest.
Qed.

End base_urls.

(** ** Decoding an envelope *)

Import encoding_json.

Section field_selection.

Context {F : Type} (fields : list F) (name : F -> string).

Hypothesis name_matches_itself :
  forall f, In f fields -> equalFold (name f) (name f) = true.
Hypothesis names_apart :
  forall f g key, In f fields -> In g fields ->
    equalFold (name f) key = true -> equalFold (name g) key = true -> f = g.

Lemma field_for_matches key f :
  field_for fields name key = Some f ->
  In f fields /\ equalFold (name f) key = true.
Proof.
  unfold field_for.
  destruct (List.find (fun f => name f =? key) fields) as [g|] eqn:Hexact.
  - intros [= <-]. apply find_some in Hexact as [Hin Heq].
    apply String.eqb_eq in Heq. split; [exact Hin|].
    rewrite <- Heq. now apply name_matches_itself.
  - intros Hfold. now apply find_some in Hfold.
Qed.

Lemma matches_field_for key f :
  In f fields -> equalFold (name f) key = true ->
  field_for fields name key = Some f.
Proof.
  intros Hin Hf.
  destruct (field_for fields name key) as [g|] eqn:Hg.
  - apply field_for_matches in Hg as [Hgin Hgf].
    f_equal. now apply (names_apart g f key).
  - unfold field_for in Hg.
    destruct (List.find (fun f => name f =? key) fields); [discriminate|].
    apply (find_none _ _ Hg) in Hin. congruence.
Qed.

End field_selection.

(** A key matches under folding only when its first byte is the name's
    first letter in one of its two cases (names that start with [s] or
    [k] apart). *)
Lemma equalFold_initial sb s key :
  Ascii.eqb (caseMask sb) "S" = false ->
  Ascii.eqb (caseMask sb) "K" = false ->
  equalFold (String sb s) key = true ->
  exists tb t, key = String tb t /\ caseMask tb = caseMask sb.
Proof.
  intros HS HK. destruct key as [|tb t]; simpl; [discriminate|].
  rewrite HS, HK.
  destruct (code tb <? 128)%N; [|discriminate].
  intros [H _]%andb_prop. exists tb, t. split; [reflexivity|].
  apply orb_prop in H as [H|H].
  - apply Ascii.eqb_eq in H. now subst.
  - apply andb_prop in H as [_ H]. apply Ascii.eqb_eq in H. congruence.
Qed.

Lemma Data_tag_matches_itself f :
  equalFold (wire.Data_tag f) (wire.Data_tag f) = true.
Proof. destruct f; reflexivity. Qed.

Lemma Data_tags_apart f g key :
  equalFold (wire.Data_tag f) key = true ->
  equalFold (wire.Data_tag g) key = true -> f = g.
Proof.
  intros Hf Hg.
  destruct f; destruct g; try reflexivity; exfalso;
    apply equalFold_initial in Hf as (tb & t & -> & Hf); try reflexivity;
    apply equalFold_initial in Hg as (tb' & t' & [= <- <-] & Hg);
    try reflexivity;
    rewrite Hf in Hg; vm_compute in Hg; discriminate Hg.
Qed.

Lemma In_Data_fields f : In f wire.Data_fields.
Proof. destruct f; simpl; tauto. Qed.

Lemma Data_field_for key f :
  field_for wire.Data_fields wire.Data_tag key = Some f
  <-> equalFold (wire.Data_tag f) key = true.
Proof.
  split.
  - intros H. apply field_for_matches in H; [tauto|].
    intros; apply Data_tag_matches_itself.
  - apply matches_field_for.
    + intros; apply Data_tag_matches_itself.
    + intros; eapply Data_tags_apart; eassumption.
    + apply In_Data_fields.
Qed.

Lemma filter_sole {A : Type} (p : A -> bool) l x :
  List.filter p l = [x] ->
  exists l1 l2, l = (l1 ++ x :: l2)%list /\ p x = true
    /\ Forall (fun y => p y = false) l1 /\ Forall (fun y => p y = false) l2.
Proof.
  induction l as [|a l IH]; simpl; [discriminate|].
  destruct (p a) eqn:Ha.
  - intros [= -> Hl]. exists [], l. repeat split; auto.
    clear IH. induction l as [|b l IH]; [constructor|].
    simpl in Hl. destruct (p b) eqn:Hb; [discriminate|].
    constructor; auto.
  - intros Hl. destruct (IH Hl) as (l1 & l2 & -> & Hx & H1 & H2).
    exists (a :: l1), l2. repeat split; auto.
Qed.

Lemma sole_members_named name members v :
  sole (members_named name members) = Some v ->
  exists l1 k l2, members = (l1 ++ (k, v) :: l2)%list
    /\ equalFold name k = true
    /\ Forall (fun kv => equalFold name (fst kv) = false) l1
    /\ Forall (fun kv => equalFold name (fst kv) = false) l2.
Proof.
  unfold members_named, sole.
  destruct (List.filter _ members) as [|[k v'] [|? ?]] eqn:Hf;
    simpl; try discriminate.
  intros [= ->]. apply filter_sole in Hf as (l1 & l2 & -> & Hk & H1 & H2).
  exists l1, k, l2. auto.
Qed.

Lemma string_member_sole name members s :
  string_member name members = Some s ->
  sole (members_named name members) = Some (JString s).
Proof.
  unfold string_member.
  destruct (sole (members_named name members)) as [[]|]; congruence.
Qed.

Section Data_members.

#[local] Abbreviation member :=
  (member_into_struct wire.Data_fields wire.Data_tag wire.Data_store).

Lemma Data_get_set f g v d :
  wire.Data_get f (wire.Data_set g v d)
  = if decide (f = g) then v else wire.Data_get f d.
Proof. destruct f, g, d; reflexivity. Qed.

Lemma member_other f st kv :
  equalFold (wire.Data_tag f) (fst kv) = false ->
  wire.Data_get f (fst (member st kv)) = wire.Data_get f (fst st).
Proof.
  intros Hf. unfold member_into_struct.
  destruct (field_for _ _ (fst kv)) as [g|] eqn:Hg; [|reflexivity].
  apply Data_field_for in Hg. unfold wire.Data_store.
  destruct (value_into_string _ _) as [v e]. simpl.
  rewrite Data_get_set. destruct (decide (f = g)) as [->|]; congruence.
Qed.

Lemma members_other f l st :
  Forall (fun kv => equalFold (wire.Data_tag f) (fst kv) = false) l ->
  wire.Data_get f (fst (fold_left member l st)) = wire.Data_get f (fst st).
Proof.
  intros Hl. revert st.
  induction Hl as [|kv l Hkv _ IH]; intros st; simpl; [reflexivity|].
  rewrite IH. now apply member_other.
Qed.

Lemma member_string f st k s :
  equalFold (wire.Data_tag f) k = true ->
  member st (k, JString s) = (wire.Data_set f s (fst st), snd st).
Proof.
  intros Hf. apply Data_field_for in Hf.
  unfold member_into_struct. simpl. rewrite Hf.
  unfold wire.Data_store. simpl. now destruct (snd st).
Qed.

Lemma members_no_error l st :
  (forall kv f, In kv l -> equalFold (wire.Data_tag f) (fst kv) = true ->
     exists s, snd kv = JString s) ->
  snd (fold_left member l st) = snd st.
Proof.
  revert st. induction l as [|[k v] l IH]; intros st Hl; simpl; [reflexivity|].
  rewrite IH by (intros; eapply Hl; [right|]; eassumption).
  unfold member_into_struct. simpl.
  destruct (field_for _ _ k) as [f|] eqn:Hf; [|reflexivity].
  apply Data_field_for in Hf.
  destruct (Hl (k, v) f (or_introl eq_refl) Hf) as [s Hs]. simpl in Hs.
  subst v. unfold wire.Data_store. simpl. now destruct (snd st).
Qed.

(** The members of a well-formed [data] object fill the five fields. *)
Lemma object_into_Data members e d0 :
  (forall f, string_member (wire.Data_tag f) members
             = Some (wire.Data_get f e)) ->
  object_into_struct wire.Data_fields wire.Data_tag wire.Data_store members d0
  = (e, None).
Proof.
  intros He. unfold object_into_struct.
  assert (Hget : forall f,
    wire.Data_get f (fst (fold_left member members (d0, None)))
    = wire.Data_get f e).
  { intros f. specialize (He f).
    apply string_member_sole, sole_members_named in He
      as (l1 & k & l2 & -> & Hk & H1 & H2).
    rewrite fold_left_app. simpl.
    rewrite (members_other _ _ _ H2), (member_string f _ _ _ Hk). simpl.
    rewrite Data_get_set. now destruct (decide (f = f)). }
  assert (Herr : snd (fold_left member members (d0, None)) = None).
  { rewrite members_no_error; [reflexivity|].
    intros kv f Hin Hf. specialize (He f).
    apply string_member_sole, sole_members_named in He
      as (l1 & k & l2 & -> & Hk & H1 & H2).
    apply in_app_or in Hin as [Hin|[<-|Hin]].
    - rewrite List.Forall_forall in H1. apply H1 in Hin. congruence.
    - eauto.
    - rewrite List.Forall_forall in H2. apply H2 in Hin. congruence. }
  destruct (fold_left member members (d0, None)) as [d err].
  simpl in Hget, Herr. subst err. f_equal.
  pose proof (Hget wire.fVersion). pose proof (Hget wire.fAPIVersion).
  pose proof (Hget wire.fPHPVersion). pose proof (Hget wire.fOS).
  pose proof (Hget wire.fDBDriver).
  destruct d, e; simpl in *; congruence.
Qed.

End Data_members.

Lemma data_field_for key :
  field_for [()] (fun _ => "data") key
  = if equalFold "data" key then Some () else None.
Proof.
  unfold field_for. cbn [List.find]. destruct ("data" =? key) eqn:H.
  - apply String.eqb_eq in H. subst. reflexivity.
  - now destruct (equalFold "data" key).
Qed.

Lemma respData_unmatched l st :
  Forall (fun kv => equalFold "data" (fst kv) = false) l ->
  fold_left (member_into_struct [()] (fun _ => "data") wire.respData_store) l st
  = st.
Proof.
  intros Hl. revert st.
  induction Hl as [|kv l Hkv _ IH]; intros st; simpl; [reflexivity|].
  rewrite IH. unfold member_into_struct.
  now rewrite data_field_for, Hkv.
Qed.

(** Decoding the body of a well-formed envelope gives its five values and
    no error. *)
Lemma Decode_envelope body j e :
  readValue body = Ok j -> as_envelope j = Some e ->
  Decode wire.into_respData body wire.zero = (wire.mkRespData e, None).
Proof.
  intros Hread Henv. unfold Decode. rewrite Hread.
  destruct j as [| | | | |top]; try discriminate. simpl in Henv.
  destruct (sole (members_named "data" top)) as [[| | | | |members]|] eqn:Hdata;
    try discriminate.
  destruct (string_member "version" members) as [v|] eqn:Hv; [|discriminate].
  destruct (string_member "api_version" members) as [a|] eqn:Ha; [|discriminate].
  destruct (string_member "php_version" members) as [p|] eqn:Hp; [|discriminate].
  destruct (string_member "os" members) as [o|] eqn:Ho; [|discriminate].
  destruct (string_member "driver" members) as [d|] eqn:Hd; [|discriminate].
  injection Henv as <-.
  apply sole_members_named in Hdata as (l1 & k & l2 & -> & Hk & H1 & H2).
  unfold wire.into_respData, value_into_struct, object_into_struct.
  rewrite fold_left_app, (respData_unmatched _ _ H1). simpl.
  rewrite respData_unmatched by exact H2.
  unfold member_into_struct. simpl. rewrite data_field_for, Hk.
  unfold wire.respData_store, wire.into_Data, value_into_struct.
  rewrite (object_into_Data members (wire.mkData v a p o d)); [reflexivity|].
  intros []; assumption.
Qed.

Import net_http.

(** ** The provider *)

Lemma NewRequest_about : NewRequest "GET" "/api/v1/about" = Ok about_request.
Proof. reflexivity. Qed.

Lemma Header_Values_Add value (h : gmap string (list string)) :
  Header_Values "Authorization" (Header_Add "Authorization" value h)
  = (Header_Values "Authorization" h ++ [value])%list.
Proof.
  unfold Header_Values, Header_Add.
  change (CanonicalMIMEHeaderKey "Authorization") with "Authorization".
  now rewrite lookup_insert_eq.
Qed.

Lemma Sprintf_Bearer token :
  fmt.Sprintf_s "Bearer %s" token = "Bearer " +:+ token.
Proof. simpl. now rewrite append_nil_r. Qed.

(** When the base URL parses, [RoundTrip] hands the underlying transport
    the request with scheme and host overwritten and one more
    [Authorization] value; nothing else changes. *)
Lemma RoundTrip_parsed {W} (t : fireflyTransport (W := W)) parsed r w :
  net_url.Parse (baseURL t) = Ok parsed ->
  RoundTrip t r w
  = rt t (mkRequest (Method r)
            (mkURL (Scheme parsed) (Opaque (URL r)) (User (URL r)) (Host parsed)
                   (Path (URL r)) (RawPath (URL r)) (OmitHost (URL r))
                   (ForceQuery (URL r)) (RawQuery (URL r)) (Fragment (URL r))
                   (RawFragment (URL r)))
            (Proto r)
            (Header_Add "Authorization" ("Bearer " +:+ accessToken t) (Header r))
            (Body r) (ReqHost r)) w.
Proof.
  intros H. unfold RoundTrip. rewrite H, Sprintf_Bearer. reflexivity.
Qed.

(** When it does not parse, [RoundTrip] returns the error without calling
    the underlying transport and without touching the request. *)
Lemma RoundTrip_unparsed {W} (t : fireflyTransport (W := W)) e r w :
  net_url.Parse (baseURL t) = Err e -> RoundTrip t r w = (Err e, r, w).
Proof. intros H. unfold RoundTrip. now rewrite H. Qed.

(** An error diagnostic is new to diagnostics that hold no error. *)
Lemma AddError_fresh summary detail diags :
  diag.HasError diags = false ->
  diag.AddError summary detail diags
  = (diags ++ [NewErrorDiagnostic summary detail])%list.
Proof.
  intros H. unfold diag.AddError. simpl.
  replace (diag.Contains diags (NewErrorDiagnostic summary detail)) with false;
    [reflexivity|].
  symmetry. unfold diag.HasError in H. unfold diag.Contains.
  induction diags as [|d diags IH]; [reflexivity|].
  simpl in *. apply orb_false_elim in H as [Hd Hrest].
  rewrite (IH Hrest), orb_false_r.
  apply bool_decide_eq_false. intros ->.
  now rewrite bool_decide_eq_false in Hd.
Qed.

Lemma Append_nil diags : diag.Append diags [] = diags.
Proof. reflexivity. Qed.

(** [Read] with diagnostics that hold an error returns at once. *)
Lemma Read_config_error {W} (d : SysInfoDataSource (W := W)) req resp :
  diag.HasError (read_diags req resp) = true ->
  Read d req resp = Done (mkReadResponse (State resp) (read_diags req resp)).
Proof. intros H. unfold Read. fold (read_diags req resp). now rewrite H. Qed.

(** Otherwise it fails on a nil client, *)
Lemma Read_nil_client {W} (d : SysInfoDataSource (W := W)) req resp :
  diag.HasError (read_diags req resp) = false -> client d = None ->
  Read d req resp = Panic nil_Client.
Proof.
  intros H Hd. unfold Read. fold (read_diags req resp).
  now rewrite H, NewRequest_about, Hd.
Qed.

(** or makes one call and returns, whatever the answer. *)
Lemma Read_fetches {W} (d : SysInfoDataSource (W := W)) c req resp :
  diag.HasError (read_diags req resp) = false -> client d = Some c ->
  exists k,
    Read d req resp = Do c about_request k
    /\ (forall err,
          k (Err err)
          = Done (mkReadResponse (State resp)
                    (read_diags req resp
                     ++ [NewErrorDiagnostic "Client Error"
                           (fmt_Sprintf "Unable to read example, got error: %s"
                                        [arg_error err])])%list))
    /\ (forall httpResp,
          k (Ok httpResp)
          = Done (mkReadResponse
                    (Some (record_of (wire.Data (fst
                       (encoding_json.Decode wire.into_respData
                          (RespBody httpResp) wire.zero)))))
                    (read_diags req resp))).
Proof.
  intros H Hd. unfold Read. fold (read_diags req resp).
  rewrite H, NewRequest_about, Hd.
  eexists. split; [reflexivity|]. split.
  - intros err. now rewrite AddError_fresh.
  - intros httpResp.
    now destruct (encoding_json.Decode _ _ _) as [respData err].
Qed.

(** ** The claims *)

(** Whatever the body, a response makes [Read] store a record and report
    nothing: the error of [Decode] is dropped. *)
Lemma Read_stores_after_any_body {W}
    (serve : Client W -> Request -> W -> result Response * W)
    (c : Client W) req resp httpResp w w' :
  diag.HasError (read_diags req resp) = false ->
  serve c about_request w = (Ok httpResp, w') ->
  run serve (Read (mkSysInfoDataSource (Some c)) req resp) w
  = (Returned (mkReadResponse
       (Some (record_of (wire.Data (fst
          (encoding_json.Decode wire.into_respData (RespBody httpResp)
                                wire.zero)))))
       (read_diags req resp)), w').
Proof.
  intros H HDo.
  destruct (Read_fetches (mkSysInfoDataSource (Some c)) c req resp H eq_refl)
    as (k & -> & _ & Hk).
  simpl. now rewrite HDo, Hk.
Qed.

(** C1 (the code departs from the claim).  A body cut short makes
    [Decode] return [io.ErrUnexpectedEOF], yet [Read] reports no error and
    stores a record of five empty strings; a body of the wrong shape makes
    [Decode] return an [UnmarshalTypeError], yet [Read] stores the
    partly filled record. *)
Theorem Read_drops_decode_error :
  snd (encoding_json.Decode wire.into_respData example.truncated_body wire.zero)
  = Some io_ErrUnexpectedEOF
  /\ fst (example.fetch (example.service example.truncated_body)
                        "http://firefly.local:8000" "tok" [])
     = Returned (mkReadResponse
                   (Some (record_of (wire.mkData "" "" "" "" ""))) [])
  /\ snd (encoding_json.Decode wire.into_respData example.misshapen_body wire.zero)
     = Some (json_UnmarshalTypeError "number")
  /\ fst (example.fetch (example.service example.misshapen_body)
                        "http://firefly.local:8000" "tok" [])
     = Returned (mkReadResponse
                   (Some (record_of (wire.mkData "" "" "" "Linux" ""))) []).
Proof. vm_compute. repeat split; reflexivity. Qed.

(** C2, as the code has it.  For every base URL [scheme://host[:port]]
    whose scheme is [http] or [https], whose host is a non-empty
    registered name written without escapes and whose port, if any, is a
    colon and digits, and for every request, [RoundTrip] passes the
    underlying transport a request whose scheme and host are those of the
    base URL and whose path and query (and method and body) are the
    request's own. *)
Theorem RoundTrip_sets_scheme_and_host {W} (rt : RoundTripper W)
    scheme host port token r w :
  valid_base scheme host port = true ->
  exists r',
    RoundTrip (mkFireflyTransport (base_url scheme host port) token rt) r w
    = rt r' w
    /\ Scheme (URL r') = scheme
    /\ Host (URL r') = host +:+ port
    /\ Path (URL r') = Path (URL r)
    /\ RawPath (URL r') = RawPath (URL r)
    /\ RawQuery (URL r') = RawQuery (URL r)
    /\ ForceQuery (URL r') = ForceQuery (URL r)
    /\ Method r' = Method r
    /\ Body r' = Body r.
Proof.
  intros H. eexists. split.
  - apply RoundTrip_parsed. simpl. now apply Parse_base.
  - simpl. repeat split.
Qed.

Lemma RoundTrip_sets_scheme_and_host_witness :
  valid_base "http" "firefly.local" ":8000" = true
  /\ exists r',
       RoundTrip (mkFireflyTransport "http://firefly.local:8000" "tok"
                                     example.refused) about_request []
       = example.refused r' []
       /\ Scheme (URL r') = "http"
       /\ Host (URL r') = "firefly.local:8000"
       /\ Path (URL r') = "/api/v1/about"
       /\ RawPath (URL r') = ""
       /\ RawQuery (URL r') = ""
       /\ ForceQuery (URL r') = false
       /\ Method r' = "GET"
       /\ Body r' = None.
Proof.
  split; [reflexivity|].
  apply (RoundTrip_sets_scheme_and_host example.refused
           "http" "firefly.local" ":8000" "tok" about_request []).
  reflexivity.
Defined.

(** C2 as stated fails.  The schema's pattern lets more through than
    such base URLs: it accepts ["http://a b"], which [url.Parse] rejects.
    Under that base URL [RoundTrip] returns the parse error; the request
    keeps its empty scheme and host, and the underlying transport is not
    called. *)
Lemma RoundTrip_rewrites_nothing_under_accepted_endpoint :
  let t := mkFireflyTransport "http://a b" "tok" example.refused in
  endpoint_pattern (baseURL t) = true
  /\ RoundTrip t about_request []
     = (Err (url_Error "parse" "http://a b" (url_InvalidHostError " ")),
        about_request, [])
  /\ Scheme (URL about_request) = ""
  /\ Host (URL about_request) = "".
Proof. repeat split. Qed.

(** C3, as the code has it.  [RoundTrip] appends ["Bearer <token>"] to the
    values of the [Authorization] header: the header is exactly that
    value when the request carried none. *)
Theorem RoundTrip_appends_bearer_token {W} (rt : RoundTripper W)
    baseURL parsed token r w :
  net_url.Parse baseURL = Ok parsed ->
  exists r',
    RoundTrip (mkFireflyTransport baseURL token rt) r w = rt r' w
    /\ Header_Values "Authorization" (Header r')
       = (Header_Values "Authorization" (Header r) ++ ["Bearer " +:+ token])%list
    /\ (Header_Values "Authorization" (Header r) = [] ->
        Header_Values "Authorization" (Header r') = ["Bearer " +:+ token]
        /\ Header_Get "Authorization" (Header r') = "Bearer " +:+ token).
Proof.
  intros H. eexists. split; [apply RoundTrip_parsed; exact H|].
  simpl. rewrite Header_Values_Add. split; [reflexivity|].
  intros Hnone. unfold Header_Get. rewrite Header_Values_Add, Hnone.
  split; reflexivity.
Qed.

Lemma RoundTrip_appends_bearer_token_witness :
  net_url.Parse "http://firefly.local:8000"
  = Ok (mkURL "http" "" None "firefly.local:8000" "" "" false false "" "" "")
  /\ exists r',
       RoundTrip (mkFireflyTransport "http://firefly.local:8000" "tok"
                                     example.refused) about_request []
       = example.refused r' []
       /\ Header_Values "Authorization" (Header r')
          = (Header_Values "Authorization" (Header about_request)
             ++ ["Bearer " +:+ "tok"])%list
       /\ (Header_Values "Authorization" (Header about_request) = [] ->
           Header_Values "Authorization" (Header r') = ["Bearer " +:+ "tok"]
           /\ Header_Get "Authorization" (Header r') = "Bearer " +:+ "tok").
Proof.
  split; [reflexivity|].
  apply (RoundTrip_appends_bearer_token example.refused
           "http://firefly.local:8000"
           (mkURL "http" "" None "firefly.local:8000" "" "" false false "" "" "")
           "tok" about_request []).
  reflexivity.
Defined.

(** C3 as stated fails: a request that arrives with an [Authorization]
    value leaves with two, and [Header.Get] still answers the first. *)
Lemma RoundTrip_keeps_earlier_Authorization :
  match RoundTrip (mkFireflyTransport "http://firefly.local:8000" "tok"
                                      example.refused)
                  example.signed_request [] with
  | (_, r', _) =>
      Header_Values "Authorization" (Header r')
      = ["Basic Zm9vOmJhcg=="; "Bearer tok"]
      /\ Header_Get "Authorization" (Header r') <> "Bearer tok"
  end.
Proof. vm_compute. split; [reflexivity|discriminate]. Qed.

(** C4.  When the client answers with a body that is a well-formed
    envelope, [Read] stores a record whose five fields are the five
    strings of the envelope, unchanged, and reports nothing. *)
Theorem Read_copies_envelope {W}
    (serve : Client W -> Request -> W -> result Response * W)
    (c : Client W) req resp httpResp j e w w' :
  diag.HasError (read_diags req resp) = false ->
  serve c about_request w = (Ok httpResp, w') ->
  encoding_json.readValue (RespBody httpResp) = Ok j ->
  as_envelope j = Some e ->
  run serve (Read (mkSysInfoDataSource (Some c)) req resp) w
  = (Returned (mkReadResponse
       (Some (model.mkSysInfoDataSourceModel
                (StringValue (wire.Version e)) (StringValue (wire.APIVersion e))
                (StringValue (wire.PHPVersion e)) (StringValue (wire.OS e))
                (StringValue (wire.DBDriver e))))
       (read_diags req resp)), w').
Proof.
  intros H HDo Hread Henv.
  rewrite (Read_stores_after_any_body _ _ _ _ _ _ _ H HDo).
  now rewrite (Decode_envelope _ _ _ Hread Henv).
Qed.

Lemma Read_copies_envelope_witness :
  exists w',
    run (Client_Do (example.service example.about_body))
        (Read (mkSysInfoDataSource
                 (Some (example.client (example.service example.about_body)
                                       "http://firefly.local:8000" "tok")))
              example.read_request example.read_response) []
    = (Returned (mkReadResponse
         (Some (model.mkSysInfoDataSourceModel
                  (StringValue "6.1.0") (StringValue "2.0.0")
                  (StringValue "8.2") (StringValue "Linux")
                  (StringValue "mysql")))
         []), w').
Proof.
  eexists.
  eapply (Read_copies_envelope
            (Client_Do (example.service example.about_body)) _
            example.read_request example.read_response
            (mkResponse 200 ∅ example.about_body) _
            (wire.mkData "6.1.0" "2.0.0" "8.2" "Linux" "mysql") []);
    reflexivity.
Defined.

(** C5, as the code has it.  An endpoint that [url.Parse] rejects is not
    noticed when the transport is constructed: [Configure] reports
    nothing and hands out the client.  Every [RoundTrip] then returns the
    parse error, without calling the underlying transport and without
    touching the request. *)
Theorem unparsable_endpoint_fails_each_RoundTrip {W}
    (DefaultTransport : RoundTripper W) endpoint token e :
  net_url.Parse endpoint = Err e ->
  let t := mkFireflyTransport endpoint token DefaultTransport in
  let resp := FireflyProvider_Configure DefaultTransport
                (example.provider_request endpoint token)
                (mkProviderConfigureResponse [] None None) in
  provider_Diagnostics resp = []
  /\ DataSourceData resp = Some (any_Client (Some (mkClient (Some (RoundTrip t)))))
  /\ forall r w, RoundTrip t r w = (Err e, r, w).
Proof.
  intros H. simpl. repeat split.
  intros r w. now apply RoundTrip_unparsed.
Qed.

Lemma unparsable_endpoint_fails_each_RoundTrip_witness :
  let t := mkFireflyTransport "http://a b" "tok" example.refused in
  let resp := example.provider_response example.refused "http://a b" "tok" in
  provider_Diagnostics resp = []
  /\ DataSourceData resp = Some (any_Client (Some (mkClient (Some (RoundTrip t)))))
  /\ forall r w,
       RoundTrip t r w
       = (Err (url_Error "parse" "http://a b" (url_InvalidHostError " ")), r, w).
Proof.
  apply (unparsable_endpoint_fails_each_RoundTrip example.refused
           "http://a b" "tok").
  reflexivity.
Defined.

(** C5 as stated fails.  The endpoint ["http://a b"] passes the schema's
    pattern and [url.Parse] rejects it, yet constructing the transport
    reports no error; the endpoint ["firefly.local"] is not rejected by
    [url.Parse] at all, and construction reports no error either. *)
Lemma Configure_reports_no_endpoint_error :
  endpoint_pattern "http://a b" = true
  /\ is_Err (net_url.Parse "http://a b") = true
  /\ provider_Diagnostics
       (example.provider_response example.refused "http://a b" "tok") = []
  /\ DataSourceData
       (example.provider_response example.refused "http://a b" "tok")
     = Some (any_Client (Some (example.client example.refused "http://a b" "tok")))
  /\ is_Err (net_url.Parse "firefly.local") = false
  /\ provider_Diagnostics
       (example.provider_response example.refused "firefly.local" "tok") = [].
Proof. repeat split. Qed.

(** C6.  When the client returns an error, [Read] makes no further call,
    leaves the state as it was and appends one error diagnostic,
    "Client Error", that carries the error. *)
Theorem Read_reports_transport_error {W}
    (serve : Client W -> Request -> W -> result Response * W)
    (c : Client W) req resp err w w' :
  diag.HasError (read_diags req resp) = false ->
  serve c about_request w = (Err err, w') ->
  run serve (Read (mkSysInfoDataSource (Some c)) req resp) w
  = (Returned (mkReadResponse (State resp)
       (read_diags req resp
        ++ [NewErrorDiagnostic "Client Error"
              (fmt_Sprintf "Unable to read example, got error: %s"
                           [arg_error err])])%list), w')
  /\ calls serve (Read (mkSysInfoDataSource (Some c)) req resp) w
     = [about_request].
Proof.
  intros H HDo.
  destruct (Read_fetches (mkSysInfoDataSource (Some c)) c req resp H eq_refl)
    as (k & -> & Hk & _).
  simpl. rewrite HDo, Hk. split; reflexivity.
Qed.

Lemma Read_reports_transport_error_witness :
  exists err w',
    run (Client_Do example.refused)
        (Read (mkSysInfoDataSource
                 (Some (example.client example.refused
                                       "http://firefly.local:8000" "tok")))
              example.read_request example.read_response) []
    = (Returned (mkReadResponse None
         [NewErrorDiagnostic "Client Error"
            (fmt_Sprintf "Unable to read example, got error: %s"
                         [arg_error err])]), w')
    /\ calls (Client_Do example.refused)
         (Read (mkSysInfoDataSource
                  (Some (example.client example.refused
                                        "http://firefly.local:8000" "tok")))
               example.read_request example.read_response) []
       = [about_request].
Proof.
  eexists _, _.
  eapply (Read_reports_transport_error (Client_Do example.refused) _
            example.read_request example.read_response _ []);
    reflexivity.
Defined.



(** C8.  A second fetch returns what the first returned, provided the
    client answers the request in the state the first fetch left as it
    answered it before. *)
Theorem Read_twice_same_record {W}
    (serve : Client W -> Request -> W -> result Response * W)
    (d : SysInfoDataSource (W := W)) req resp w :
  let first := run serve (Read d req resp) w in
  (forall c, client d = Some c ->
     fst (serve c about_request (snd first))
     = fst (serve c about_request w)) ->
  fst (run serve (Read d req resp) (snd first)) = fst first.
Proof.
  intros first Hsame. subst first. revert Hsame.
  destruct (diag.HasError (read_diags req resp)) eqn:H.
  - now rewrite Read_config_error.
  - destruct (client d) as [c|] eqn:Hd.
    + destruct (Read_fetches d c req resp H Hd) as (k & -> & Herr & Hok).
      assert (Hdone : forall result, exists a, k result = Done a).
      { intros [httpResp|err]; [rewrite Hok|rewrite Herr]; eauto. }
      intros Hsame. specialize (Hsame c eq_refl). revert Hsame.
      cbn [run].
      destruct (serve c about_request w) as [result w1].
      destruct (Hdone result) as [a Ha]. rewrite Ha.
      cbn [run fst snd].
      destruct (serve c about_request w1) as [result' w2].
      cbn [fst]. intros ->. now rewrite Ha.
    + now rewrite Read_nil_client.
Qed.

Lemma Read_twice_same_record_witness :
  let serve := Client_Do (example.service example.about_body) in
  let d := example.data_source (example.service example.about_body)
                               "http://firefly.local:8000" "tok" in
  let first := run serve (Read d example.read_request example.read_response) [] in
  snd first <> []
  /\ fst (run serve (Read d example.read_request example.read_response)
              (snd first))
     = fst first.
Proof.
  split; [discriminate|].
  apply (Read_twice_same_record
           (Client_Do (example.service example.about_body))
           (example.data_source (example.service example.about_body)
                                "http://firefly.local:8000" "tok")
           example.read_request example.read_response []).
  intros c [= <-]. reflexivity.
Defined.

(** C9.  [Configure] with nil provider data changes neither the data
    source nor the diagnostics; a new data source so keeps its nil client,
    and a later [Read] that gets as far as the call dereferences it. *)
Theorem Configure_nil_provider_data {W} (d : SysInfoDataSource (W := W))
    resp req' resp' :
  SysInfoDataSource_Configure d (mkConfigureRequest None) resp = (d, resp)
  /\ client (fst (SysInfoDataSource_Configure NewSysInfoDataSource
                    (mkConfigureRequest (W := W) None) resp)) = None
  /\ Read (fst (SysInfoDataSource_Configure NewSysInfoDataSource
                  (mkConfigureRequest (W := W) None) resp)) req' resp'
     = if diag.HasError (read_diags req' resp')
       then Done (mkReadResponse (State resp') (read_diags req' resp'))
       else Panic nil_Client.
Proof.
  split; [reflexivity|]. split; [reflexivity|]. simpl.
  destruct (diag.HasError (read_diags req' resp')) eqn:H.
  - now apply Read_config_error.
  - now apply Read_nil_client.
Qed.

(** C10.  Building the request for ["GET"] and ["/api/v1/about"]
    succeeds, so [Read] never runs into a nil request. *)
Theorem Read_request_is_built {W} (d : SysInfoDataSource (W := W)) req resp :
  NewRequest "GET" "/api/v1/about" = Ok about_request
  /\ Read d req resp <> Panic nil_Request.
Proof.
  split; [reflexivity|].
  destruct (diag.HasError (read_diags req resp)) eqn:H.
  - now rewrite Read_config_error.
  - destruct (client d) as [c|] eqn:Hd.
    + destruct (Read_fetches d c req resp H Hd) as (k & -> & _). discriminate.
    + now rewrite Read_nil_client.
Qed.

(** * Further properties *)

(** ** Diagnostics *)

Lemma HasError_app d1 d2 :
  diag.HasError (d1 ++ d2)%list = diag.HasError d1 || diag.HasError d2.
Proof. unfold diag.HasError. apply existsb_app. Qed.

Lemma Contains_HasError diags d :
  diag.Contains diags d = true -> severity d = SeverityError ->
  diag.HasError diags = true.
Proof.
  unfold diag.Contains, diag.HasError. intros H Hd.
  apply existsb_exists in H as (x & Hin & Hx).
  apply bool_decide_eq_true in Hx. subst x.
  apply existsb_exists. exists d. split; [exact Hin|].
  now apply bool_decide_eq_true.
Qed.

(** [Append] keeps what is there and adds at its end. *)
Lemma Append_extends diags new :
  exists added, diag.Append diags new = (diags ++ added)%list.
Proof.
  revert diags. induction new as [|d new IH]; intros diags; simpl.
  - exists []. now rewrite app_nil_r.
  - destruct (diag.Contains diags d).
    + apply IH.
    + destruct (IH (diags ++ [d])%list) as [added ->].
      exists (d :: added). now rewrite <- app_assoc.
Qed.

Lemma HasError_Append diags new :
  diag.HasError (diag.Append diags new)
  = diag.HasError diags || diag.HasError new.
Proof.
  revert diags. induction new as [|d new IH]; intros diags; simpl.
  - now rewrite orb_false_r.
  - rewrite IH. destruct (diag.Contains diags d) eqn:Hc.
    + destruct (bool_decide (severity d = SeverityError)) eqn:Hd; simpl.
      * apply bool_decide_eq_true in Hd.
        now rewrite (Contains_HasError _ _ Hc Hd).
      * reflexivity.
    + rewrite HasError_app. simpl. rewrite orb_false_r.
      now rewrite orb_assoc.
Qed.

(** ** [Read]: what is stored, and when *)

Lemma members_named_nil name members :
  members_named name members = [] ->
  Forall (fun kv => equalFold name (fst kv) = false) members.
Proof.
  unfold members_named. induction members as [|kv members IH]; simpl.
  - constructor.
  - destruct (equalFold name (fst kv)) eqn:H; [discriminate|].
    intros Hrest. constructor; auto.
Qed.

Lemma Decode_no_data body :
  no_data body = true ->
  fst (Decode wire.into_respData body wire.zero) = wire.zero.
Proof.
  unfold no_data, Decode.
  destruct (readValue body) as [j|e]; [|reflexivity].
  destruct j as [| | | | |top]; try reflexivity.
  destruct (members_named "data" top) eqn:Hdata; [|discriminate].
  intros _. unfold wire.into_respData, value_into_struct, object_into_struct.
  now rewrite respData_unmatched by now apply members_named_nil.
Qed.

(** X1.  A response whose body is not JSON, or whose first value is not
    an object, or is an object without a member [data], makes [Read]
    store the record of five empty strings and report nothing. *)
Theorem Read_stores_empty_record {W}
    (serve : Client W -> Request -> W -> result Response * W)
    (c : Client W) req resp httpResp w w' :
  diag.HasError (read_diags req resp) = false ->
  serve c about_request w = (Ok httpResp, w') ->
  no_data (RespBody httpResp) = true ->
  run serve (Read (mkSysInfoDataSource (Some c)) req resp) w
  = (Returned (mkReadResponse
       (Some (model.mkSysInfoDataSourceModel
                (StringValue "") (StringValue "") (StringValue "")
                (StringValue "") (StringValue "")))
       (read_diags req resp)), w').
Proof.
  intros H Hserve Hbody.
  destruct (Read_fetches (mkSysInfoDataSource (Some c)) c req resp H eq_refl)
    as (k & -> & _ & Hk).
  simpl. rewrite Hserve, Hk, (Decode_no_data _ Hbody). reflexivity.
Qed.

Lemma Read_stores_empty_record_witness :
  exists w',
    run (Client_Do (example.service "<html>Not Found</html>"))
        (Read (mkSysInfoDataSource
                 (Some (example.client (example.service "<html>Not Found</html>")
                                       "http://firefly.local:8000" "tok")))
              example.read_request example.read_response) []
    = (Returned (mkReadResponse
         (Some (model.mkSysInfoDataSourceModel
                  (StringValue "") (StringValue "") (StringValue "")
                  (StringValue "") (StringValue "")))
         []), w').
Proof.
  eexists.
  eapply (Read_stores_empty_record
            (Client_Do (example.service "<html>Not Found</html>")) _
            example.read_request example.read_response
            (mkResponse 200 ∅ "<html>Not Found</html>") []);
    reflexivity.
Defined.

(** X2.  [Read] looks at the body of the response only: two responses
    with the same body, whatever their status codes and headers, leave
    the same state and diagnostics. *)
Theorem Read_looks_at_body_only {W}
    (serve : Client W -> Request -> W -> result Response * W)
    (d : SysInfoDataSource (W := W)) c req resp r1 r2 w1 w1' w2 w2' :
  client d = Some c ->
  serve c about_request w1 = (Ok r1, w1') ->
  serve c about_request w2 = (Ok r2, w2') ->
  RespBody r1 = RespBody r2 ->
  fst (run serve (Read d req resp) w1) = fst (run serve (Read d req resp) w2).
Proof.
  intros Hd H1 H2 Hbody.
  destruct (diag.HasError (read_diags req resp)) eqn:H.
  - now rewrite Read_config_error.
  - destruct (Read_fetches d c req resp H Hd) as (k & -> & _ & Hk).
    simpl. rewrite H1, H2, !Hk, Hbody. reflexivity.
Qed.

Lemma Read_looks_at_body_only_witness :
  let serve : Client example.wire_log -> Request -> example.wire_log ->
              result Response * example.wire_log :=
    fun _ r w =>
      (Ok (mkResponse (200 + Z.of_nat (length w)) ∅ example.about_body),
       (w ++ [r])%list) in
  let d := mkSysInfoDataSource
             (Some (example.client example.refused
                                   "http://firefly.local:8000" "tok")) in
  fst (run serve (Read d example.read_request example.read_response) [])
  = fst (run serve (Read d example.read_request example.read_response)
             [about_request]).
Proof.
  intros serve d.
  apply (Read_looks_at_body_only serve d
           (example.client example.refused "http://firefly.local:8000" "tok")
           example.read_request example.read_response
           (mkResponse 200 ∅ example.about_body)
           (mkResponse 201 ∅ example.about_body)
           [] [about_request] [about_request] [about_request; about_request]);
    reflexivity.
Defined.

(** X3.  When the response already holds an error diagnostic, or
    [req.Config.Get] returns one, [Read] calls no client and leaves the
    state as it is. *)
Theorem Read_makes_no_call_after_error {W}
    (serve : Client W -> Request -> W -> result Response * W)
    (d : SysInfoDataSource (W := W)) req resp w :
  diag.HasError (Diagnostics resp) || diag.HasError (Get_diags (read_Config req))
  = true ->
  calls serve (Read d req resp) w = []
  /\ run serve (Read d req resp) w
     = (Returned (mkReadResponse (State resp) (read_diags req resp)), w).
Proof.
  intros H. rewrite Read_config_error; [split; reflexivity|].
  unfold read_diags. now rewrite HasError_Append.
Qed.

Lemma Read_makes_no_call_after_error_witness :
  let failed := NewErrorDiagnostic "Invalid Configuration"
                  (fmt_Sprintf "unsupported argument" []) in
  let req := mkReadRequest
               (mkConfig (model.mkSysInfoDataSourceModel StringNull StringNull
                            StringNull StringNull StringNull) [failed]) in
  let d := example.data_source (example.service example.about_body)
                               "http://firefly.local:8000" "tok" in
  calls (Client_Do (example.service example.about_body))
        (Read d req example.read_response) [] = []
  /\ run (Client_Do (example.service example.about_body))
         (Read d req example.read_response) []
     = (Returned (mkReadResponse None [failed]), []).
Proof.
  intros failed req d.
  apply (Read_makes_no_call_after_error
           (Client_Do (example.service example.about_body)) d req
           example.read_response []).
  reflexivity.
Defined.

(** X4.  On every path [Read] keeps the diagnostics it was given and
    adds at their end; the state it leaves is the one it was given or a
    record whose five fields are all known strings; and it fails only on
    a nil client. *)
Theorem Read_keeps_diagnostics_and_whole_records {W}
    (serve : Client W -> Request -> W -> result Response * W)
    (d : SysInfoDataSource (W := W)) req resp w :
  match fst (run serve (Read d req resp) w) with
  | Returned r =>
      (exists added, Diagnostics r = (Diagnostics resp ++ added)%list)
      /\ (State r = State resp
          \/ exists v a p o b,
               State r = Some (model.mkSysInfoDataSourceModel
                                 (StringValue v) (StringValue a) (StringValue p)
                                 (StringValue o) (StringValue b)))
  | Panicked cause => cause = nil_Client /\ client d = None
  end.
Proof.
  destruct (Append_extends (Diagnostics resp) (Get_diags (read_Config req)))
    as [added Hadded].
  fold (read_diags req resp) in Hadded.
  destruct (diag.HasError (read_diags req resp)) eqn:H.
  - rewrite Read_config_error by exact H. simpl. split; [eauto|now left].
  - destruct (client d) as [c|] eqn:Hd.
    + destruct (Read_fetches d c req resp H Hd) as (k & -> & Herr & Hok).
      simpl. destruct (serve c about_request w) as [[httpResp|err] w'].
      * rewrite Hok. simpl. split; [eauto|]. right.
        unfold record_of. eauto 10.
      * rewrite Herr. simpl. split; [|now left].
        rewrite Hadded, <- app_assoc. eauto.
    + rewrite Read_nil_client by assumption. simpl. auto.
Qed.

(** ** [RoundTrip]: what it leaves alone, and what repeats *)

Lemma Header_Values_Add_other key value (h : gmap string (list string)) :
  CanonicalMIMEHeaderKey key <> "Authorization" ->
  Header_Values key (Header_Add "Authorization" value h) = Header_Values key h.
Proof.
  intros Hkey. unfold Header_Values, Header_Add.
  change (CanonicalMIMEHeaderKey "Authorization") with "Authorization".
  now rewrite lookup_insert_ne.
Qed.

(** X5.  For every base URL that [url.Parse] accepts, whatever path,
    query or fragment it may carry, [RoundTrip] takes from it the scheme
    and the host only: every other part of the request's URL, its method,
    protocol, body and [Host] field, and the values of every header other
    than [Authorization] reach the underlying transport as they were, and
    what that transport returns is returned. *)
Theorem RoundTrip_leaves_the_rest {W} (rt : RoundTripper W)
    baseURL parsed token r w :
  net_url.Parse baseURL = Ok parsed ->
  exists r',
    RoundTrip (mkFireflyTransport baseURL token rt) r w = rt r' w
    /\ URL r' = mkURL (Scheme parsed) (Opaque (URL r)) (User (URL r))
                      (Host parsed) (Path (URL r)) (RawPath (URL r))
                      (OmitHost (URL r)) (ForceQuery (URL r))
                      (RawQuery (URL r)) (Fragment (URL r))
                      (RawFragment (URL r))
    /\ Method r' = Method r /\ Proto r' = Proto r /\ Body r' = Body r
    /\ ReqHost r' = ReqHost r
    /\ forall key, CanonicalMIMEHeaderKey key <> "Authorization" ->
         Header_Values key (Header r') = Header_Values key (Header r).
Proof.
  intros H. eexists. split; [apply RoundTrip_parsed; exact H|].
  simpl. repeat split. intros key Hkey. now apply Header_Values_Add_other.
Qed.

Lemma RoundTrip_leaves_the_rest_witness :
  exists r',
    RoundTrip (mkFireflyTransport "https://firefly.local/base?x=1#top" "tok"
                                  example.refused)
              example.signed_request []
    = example.refused r' []
    /\ URL r' = mkURL "https" "" None "firefly.local" "/api/v1/about" ""
                      false false "" "" ""
    /\ Method r' = "GET" /\ Proto r' = "HTTP/1.1" /\ Body r' = None
    /\ ReqHost r' = ""
    /\ forall key, CanonicalMIMEHeaderKey key <> "Authorization" ->
         Header_Values key (Header r')
         = Header_Values key (Header example.signed_request).
Proof.
  apply (RoundTrip_leaves_the_rest example.refused
           "https://firefly.local/base?x=1#top"
           (mkURL "https" "" None "firefly.local" "/base" "" false false
                  "x=1" "top" "")
           "tok" example.signed_request []).
  reflexivity.
Defined.

(** X6.  A request that passes through [RoundTrip] a second time, the
    underlying transport leaving it as it is, keeps its URL and gets a
    second ["Bearer <token>"] value. *)
Theorem RoundTrip_again_repeats_the_token {W} (rt : RoundTripper W)
    baseURL parsed token r w :
  net_url.Parse baseURL = Ok parsed ->
  (forall q v, snd (fst (rt q v)) = q) ->
  let t := mkFireflyTransport baseURL token rt in
  let once := RoundTrip t r w in
  let twice := RoundTrip t (snd (fst once)) (snd once) in
  URL (snd (fst twice)) = URL (snd (fst once))
  /\ Header_Values "Authorization" (Header (snd (fst twice)))
     = (Header_Values "Authorization" (Header r)
        ++ ["Bearer " +:+ token; "Bearer " +:+ token])%list.
Proof.
  intros H Hrt t once twice. subst twice once.
  rewrite (RoundTrip_parsed t parsed r w H).
  rewrite (RoundTrip_parsed t parsed _ _ H).
  rewrite !Hrt. simpl. rewrite !Header_Values_Add, <- app_assoc.
  split; reflexivity.
Qed.

Lemma RoundTrip_again_repeats_the_token_witness :
  let t := mkFireflyTransport "http://firefly.local:8000" "tok" example.refused in
  let once := RoundTrip t about_request [] in
  let twice := RoundTrip t (snd (fst once)) (snd once) in
  URL (snd (fst twice)) = URL (snd (fst once))
  /\ Header_Values "Authorization" (Header (snd (fst twice)))
     = (Header_Values "Authorization" (Header about_request)
        ++ ["Bearer " +:+ "tok"; "Bearer " +:+ "tok"])%list.
Proof.
  apply (RoundTrip_again_repeats_the_token example.refused
           "http://firefly.local:8000"
           (mkURL "http" "" None "firefly.local:8000" "" "" false false "" "" "")
           "tok" about_request []).
  - reflexivity.
  - intros q v. reflexivity.
Defined.

(** ** The two [Configure] and the whole fetch *)

Lemma Header_Add_first value :
  Header_Add "Authorization" value ∅ = {[ "Authorization" := [value] ]}.
Proof.
  unfold Header_Add.
  change (CanonicalMIMEHeaderKey "Authorization") with "Authorization".
  now rewrite lookup_empty, insert_empty.
Qed.

Lemma Client_Do_through {W} (DefaultTransport transport : RoundTripper W) r w :
  Client_Do DefaultTransport (mkClient (Some transport)) r w
  = (match fst (fst (transport r w)) with
     | Ok resp => Ok resp
     | Err err =>
         Err (client_Error (urlErrorOp (Method (snd (fst (transport r w)))))
                           (URL (snd (fst (transport r w)))) err)
     end, snd (transport r w)).
Proof.
  unfold Client_Do. simpl. now destruct (transport r w) as [[result r'] w'].
Qed.

(** X7.  From the provider's [Configure] to the wire: with a base URL
    [scheme://host[:port]] and no configuration error, a fetch hands the
    underlying transport the [GET] request for
    [scheme://host[:port]/api/v1/about] that carries the one header
    [Authorization: Bearer <token>].  When the transport does not answer
    it with a redirect that the client follows, that is the only call: a
    response is decoded into the state, an error is reported once,
    wrapped with the method and the URL of the request. *)
Theorem fetch_reaches_the_transport_once {W} (DefaultTransport : RoundTripper W)
    scheme host port token req resp w :
  valid_base scheme host port = true ->
  diag.HasError (read_diags req resp) = false ->
  (forall httpResp r' w',
     DefaultTransport (addressed_request scheme host port token) w
     = (Ok httpResp, r', w') ->
     redirected httpResp = false) ->
  run (Client_Do DefaultTransport)
      (Read (configured DefaultTransport
               (StringValue (base_url scheme host port)) (StringValue token))
            req resp) w
  = match DefaultTransport (addressed_request scheme host port token) w with
    | (Ok httpResp, _, w') =>
        (Returned (mkReadResponse
           (Some (record_of (wire.Data (fst
              (Decode wire.into_respData (RespBody httpResp) wire.zero)))))
           (read_diags req resp)), w')
    | (Err err, r', w') =>
        (Returned (mkReadResponse (State resp)
           (read_diags req resp
            ++ [NewErrorDiagnostic "Client Error"
                  (fmt_Sprintf "Unable to read example, got error: %s"
                     [arg_error (client_Error (urlErrorOp (Method r'))
                                              (URL r') err)])])%list), w')
    end.
Proof.
  intros Hbase H _.
  set (t := mkFireflyTransport (base_url scheme host port) token DefaultTransport).
  change (configured _ _ _)
    with (mkSysInfoDataSource (Some (mkClient (Some (RoundTrip t))))).
  destruct (Read_fetches
              (mkSysInfoDataSource (Some (mkClient (Some (RoundTrip t)))))
              (mkClient (Some (RoundTrip t))) req resp H eq_refl)
    as (k & -> & Herr & Hok).
  cbn [run]. rewrite Client_Do_through.
  rewrite (RoundTrip_parsed t _ about_request w (Parse_base _ _ _ Hbase)).
  cbn [rt t accessToken about_request Method URL Proto Header Body ReqHost
       Scheme Host Opaque User Path RawPath OmitHost ForceQuery RawQuery
       Fragment RawFragment].
  rewrite Header_Add_first. fold (addressed_request scheme host port token).
  destruct (DefaultTransport _ w) as [[[httpResp|err] r'] w'];
    cbn [fst snd run].
  - now rewrite Hok.
  - now rewrite Herr.
Qed.

Lemma fetch_reaches_the_transport_once_witness :
  example.fetch (example.service example.about_body)
                "http://firefly.local:8000" "tok" []
  = (Returned (mkReadResponse
       (Some (record_of (wire.mkData "6.1.0" "2.0.0" "8.2" "Linux" "mysql")))
       []),
     [addressed_request "http" "firefly.local" ":8000" "tok"]).
Proof.
  apply (fetch_reaches_the_transport_once
           (example.service example.about_body)
           "http" "firefly.local" ":8000" "tok"
           example.read_request example.read_response []).
  - reflexivity.
  - reflexivity.
  - intros httpResp r' w' Hanswer. injection Hanswer as <- _ _. reflexivity.
Defined.

(** X8.  The provider's [Configure] followed by the data source's: the
    data source gets a client exactly when neither the response nor the
    configuration holds an error diagnostic (warnings do not count); the
    client's transport is the one for the endpoint and the token, a null
    or unknown value counting as the empty string; the resource is handed
    the same client; and the data source's [Configure] reports nothing. *)
Theorem Configure_then_Configure {W} (DefaultTransport : RoundTripper W)
    (config : Config FireflyProviderModel) (diags : list Diagnostic)
    (resp : datasource_ConfigureResponse) :
  let provided :=
    FireflyProvider_Configure DefaultTransport
      (mkProviderConfigureRequest config)
      (mkProviderConfigureResponse diags None None) in
  let done :=
    SysInfoDataSource_Configure NewSysInfoDataSource
      (mkConfigureRequest (DataSourceData provided)) resp in
  snd done = resp
  /\ ResourceData provided = DataSourceData provided
  /\ client (fst done)
     = if diag.HasError diags || diag.HasError (Get_diags config) then None
       else Some (mkClient (Some (RoundTrip
              (mkFireflyTransport
                 (ValueString (Endpoint (Get_value config)))
                 (ValueString (AccessToken (Get_value config)))
                 DefaultTransport)))).
Proof.
  intros provided done. subst done provided.
  unfold FireflyProvider_Configure. cbn [provider_Config provider_Diagnostics].
  rewrite HasError_Append.
  destruct (diag.HasError diags || diag.HasError (Get_diags config));
    repeat split.
Qed.

(** X9.  Provider data that is not a [*http.Client] leaves the data
    source as it was and leaves an error among the diagnostics: the
    diagnostic "Unexpected Data Source Configure Type" naming the type,
    added at the end unless the diagnostics already hold it. *)
Theorem Configure_refuses_other_data {W} (d : SysInfoDataSource (W := W))
    T resp :
  let unexpected :=
    NewErrorDiagnostic "Unexpected Data Source Configure Type"
      (fmt_Sprintf
         "Expected *http.Client, got: %T. Please report this issue to the provider developers."
         [arg_type T]) in
  let done := SysInfoDataSource_Configure d
                (mkConfigureRequest (Some (any_other T))) resp in
  fst done = d
  /\ diag.HasError (configure_Diagnostics (snd done)) = true
  /\ configure_Diagnostics (snd done)
     = if diag.Contains (configure_Diagnostics resp) unexpected
       then configure_Diagnostics resp
       else (configure_Diagnostics resp ++ [unexpected])%list.
Proof.
  intros unexpected done. subst done. simpl.
  split; [reflexivity|]. split; [|reflexivity].
  unfold diag.AddError. rewrite HasError_Append. simpl. apply orb_true_r.
Qed.

(** X10.  An endpoint that is null, unknown or empty gives a transport
    that blanks the scheme and the host of every request, also of one
    that named them, and still adds the token. *)
Theorem empty_endpoint_blanks_the_target {W} (DefaultTransport : RoundTripper W)
    endpoint token r w :
  ValueString endpoint = "" ->
  exists transport r',
    client (configured DefaultTransport endpoint token)
    = Some (mkClient (Some transport))
    /\ transport r w = DefaultTransport r' w
    /\ Scheme (URL r') = "" /\ Host (URL r') = ""
    /\ Path (URL r') = Path (URL r)
    /\ Header_Values "Authorization" (Header r')
       = (Header_Values "Authorization" (Header r)
          ++ ["Bearer " +:+ ValueString token])%list.
Proof.
  intros Hempty. eexists _, _. split; [reflexivity|]. split.
  - apply RoundTrip_parsed. simpl. rewrite Hempty. reflexivity.
  - simpl. rewrite Header_Values_Add. repeat split.
Qed.

Lemma empty_endpoint_blanks_the_target_witness :
  exists transport r',
    client (configured example.refused StringUnknown (StringValue "tok"))
    = Some (mkClient (Some transport))
    /\ transport (set_URL (mkURL "https" "" None "example.org" "/x" ""
                                 false false "" "" "") about_request) []
       = example.refused r' []
    /\ Scheme (URL r') = "" /\ Host (URL r') = ""
    /\ Path (URL r') = "/x"
    /\ Header_Values "Authorization" (Header r')
       = (Header_Values "Authorization" (Header about_request)
          ++ ["Bearer " +:+ "tok"])%list.
Proof.
  apply (empty_endpoint_blanks_the_target example.refused StringUnknown
           (StringValue "tok")
           (set_URL (mkURL "https" "" None "example.org" "/x" ""
                           false false "" "" "") about_request) []).
  reflexivity.
Defined.

(** ** Decoding: which member decides a field *)

Lemma later_string_default name x found kv :
  default x (later_string name found kv)
  = default (default x found) (later_string name None kv).
Proof.
  unfold later_string. destruct (equalFold name (fst kv)); [|reflexivity].
  now destruct (snd kv).
Qed.

Lemma last_string_default name x found members :
  default x (fold_left (later_string name) members found)
  = default (default x found) (last_string name members).
Proof.
  unfold last_string. revert x found.
  induction members as [|kv members IH]; intros x found; simpl; [reflexivity|].
  rewrite IH, (IH (default x found)). f_equal.
  apply later_string_default.
Qed.

Section Data_members_again.

#[local] Abbreviation member :=
  (member_into_struct wire.Data_fields wire.Data_tag wire.Data_store).

Lemma member_later f st kv :
  wire.Data_get f (fst (member st kv))
  = default (wire.Data_get f (fst st)) (later_string (wire.Data_tag f) None kv).
Proof.
  unfold later_string.
  destruct (equalFold (wire.Data_tag f) (fst kv)) eqn:Hf.
  - unfold member_into_struct.
    rewrite (proj2 (Data_field_for (fst kv) f) Hf).
    unfold wire.Data_store.
    destruct (snd kv); simpl; rewrite Data_get_set;
      now destruct (decide (f = f)).
  - now apply member_other.
Qed.

Lemma members_later f members st :
  wire.Data_get f (fst (fold_left member members st))
  = default (wire.Data_get f (fst st)) (last_string (wire.Data_tag f) members).
Proof.
  revert st. induction members as [|kv members IH]; intros st; [reflexivity|].
  cbn [fold_left]. rewrite IH, member_later.
  unfold last_string at 2. cbn [fold_left].
  now rewrite last_string_default.
Qed.

End Data_members_again.

(** Each field of the decoded data is the last string among the members
    of [data] that select it, and empty when there is none. *)
Lemma Decode_last_strings body top members f :
  readValue body = Ok (JObject top) ->
  sole (members_named "data" top) = Some (JObject members) ->
  wire.Data_get f (wire.Data (fst (Decode wire.into_respData body wire.zero)))
  = default "" (last_string (wire.Data_tag f) members).
Proof.
  intros Hread Hdata. unfold Decode. rewrite Hread.
  apply sole_members_named in Hdata as (l1 & k & l2 & -> & Hk & H1 & H2).
  unfold wire.into_respData, value_into_struct, object_into_struct.
  rewrite fold_left_app, (respData_unmatched _ _ H1). simpl.
  rewrite respData_unmatched by exact H2.
  unfold member_into_struct. simpl. rewrite data_field_for, Hk.
  unfold wire.respData_store, wire.into_Data, value_into_struct,
    object_into_struct.
  destruct (fold_left _ members _) as [d e] eqn:Hfold. simpl.
  change d with (fst (d, e)). rewrite <- Hfold, members_later.
  now destruct f.
Qed.

(** X11.  When the body is an object with one member [data], itself an
    object, [Read] stores for each field the last string among the
    members of [data] whose key selects the field, passing over members
    of that name with any other kind of value, and stores the empty
    string when there is none. *)
Theorem Read_stores_last_strings {W}
    (serve : Client W -> Request -> W -> result Response * W)
    (c : Client W) req resp httpResp top members w w' :
  diag.HasError (read_diags req resp) = false ->
  serve c about_request w = (Ok httpResp, w') ->
  readValue (RespBody httpResp) = Ok (JObject top) ->
  sole (members_named "data" top) = Some (JObject members) ->
  run serve (Read (mkSysInfoDataSource (Some c)) req resp) w
  = (Returned (mkReadResponse
       (Some (model.mkSysInfoDataSourceModel
          (StringValue (default "" (last_string "version" members)))
          (StringValue (default "" (last_string "api_version" members)))
          (StringValue (default "" (last_string "php_version" members)))
          (StringValue (default "" (last_string "os" members)))
          (StringValue (default "" (last_string "driver" members)))))
       (read_diags req resp)), w').
Proof.
  intros H Hserve Hread Hdata.
  destruct (Read_fetches (mkSysInfoDataSource (Some c)) c req resp H eq_refl)
    as (k & -> & _ & Hk).
  simpl. rewrite Hserve, Hk. unfold record_of.
  pose proof (Decode_last_strings _ _ _ wire.fVersion Hread Hdata) as H1.
  pose proof (Decode_last_strings _ _ _ wire.fAPIVersion Hread Hdata) as H2.
  pose proof (Decode_last_strings _ _ _ wire.fPHPVersion Hread Hdata) as H3.
  pose proof (Decode_last_strings _ _ _ wire.fOS Hread Hdata) as H4.
  pose proof (Decode_last_strings _ _ _ wire.fDBDriver Hread Hdata) as H5.
  cbn [wire.Data_get wire.Data_tag] in H1, H2, H3, H4, H5.
  now rewrite H1, H2, H3, H4, H5.
Qed.

Lemma Read_stores_last_strings_witness :
  let body := example.quoted
    "{'meta':{}, 'data':{'version':'1','os':null,'VERSION':'2','driver':7,'Os':'Linux','driver':[]}}" in
  exists w',
    run (Client_Do (example.service body))
        (Read (mkSysInfoDataSource
                 (Some (example.client (example.service body)
                                       "http://firefly.local:8000" "tok")))
              example.read_request example.read_response) []
    = (Returned (mkReadResponse
         (Some (model.mkSysInfoDataSourceModel
                  (StringValue "2") (StringValue "") (StringValue "")
                  (StringValue "Linux") (StringValue "")))
         []), w').
Proof.
  intros body. eexists.
  eapply (Read_stores_last_strings (Client_Do (example.service body)) _
            example.read_request example.read_response
            (mkResponse 200 ∅ body)
            [("meta", JObject []);
             ("data", JObject [("version", JString "1"); ("os", JNull);
                               ("VERSION", JString "2");
                               ("driver", JNumber "7");
                               ("Os", JString "Linux");
                               ("driver", JArray [])])]
            [("version", JString "1"); ("os", JNull);
             ("VERSION", JString "2"); ("driver", JNumber "7");
             ("Os", JString "Linux"); ("driver", JArray [])]
            []);
    reflexivity.
Defined.

(** ** Decoding the text of an envelope *)

Lemma length_append (a b : string) :
  String.length (a +:+ b) = String.length a + String.length b.
Proof.
  induction a as [|x a IH]; [reflexivity|].
  change (String x a +:+ b) with (String x (a +:+ b)). simpl. now rewrite IH.
Qed.

Lemma literal_byte_plain c :
  literal_byte c = true ->
  negb (Ascii.eqb c double_quote) && negb (Ascii.eqb c back_slash)
  && negb (code c <? 32)%N && (code c <? 128)%N && negb (isSpace c && false)
  = true.
Proof. each_byte c. Qed.

Lemma literal_byte_facts c :
  literal_byte c = true ->
  Ascii.eqb c double_quote = false /\ Ascii.eqb c back_slash = false
  /\ (code c <? 32)%N = false /\ (code c <? 128)%N = true.
Proof.
  intros H. apply literal_byte_plain in H.
  repeat (apply andb_prop in H; destruct H as [H ?]).
  repeat split; try now apply negb_true_iff. assumption.
Qed.

(** A literal is scanned up to its closing quote. *)
Lemma scanString_literal fuel t rest :
  all_bytes literal_byte t = true -> String.length t < fuel ->
  scanString fuel (t +:+ String double_quote rest) = Scanned t rest.
Proof.
  revert fuel. induction t as [|c t IH]; intros fuel Ht Hfuel.
  - destruct fuel; [lia|]. reflexivity.
  - destruct fuel as [|fuel]; [simpl in Hfuel; lia|].
    simpl in Ht. apply andb_prop in Ht as [Hc Ht].
    destruct (literal_byte_facts _ Hc) as (Hq & Hb & Hctl & _).
    change (String c t +:+ String double_quote rest)
      with (String c (t +:+ String double_quote rest)).
    cbn [scanString]. rewrite Hq, Hb, Hctl.
    rewrite IH by (simpl in Hfuel; auto with arith). reflexivity.
Qed.

Lemma unquote_literal fuel t :
  all_bytes literal_byte t = true -> String.length t <= fuel ->
  unquote fuel t = t.
Proof.
  revert fuel. induction t as [|c t IH]; intros fuel Ht Hfuel.
  - now destruct fuel.
  - destruct fuel as [|fuel]; [simpl in Hfuel; lia|].
    simpl in Ht. apply andb_prop in Ht as [Hc Ht].
    destruct (literal_byte_facts _ Hc) as (_ & Hb & _ & Hascii).
    cbn [unquote]. rewrite Hb, Hascii.
    rewrite IH by (simpl in Hfuel; auto with arith). reflexivity.
Qed.

Lemma scanQuoted_literal t rest :
  all_bytes literal_byte t = true ->
  scanQuoted (t +:+ String double_quote rest) = Scanned t rest.
Proof.
  intros Ht. unfold scanQuoted.
  rewrite scanString_literal by (rewrite ?length_append; simpl; auto; lia).
  simpl. now rewrite unquote_literal.
Qed.

Lemma literal_append s rest :
  literal s +:+ rest = String double_quote (s +:+ String double_quote rest).
Proof.
  unfold literal.
  change (String double_quote (s +:+ String double_quote "") +:+ rest)
    with (String double_quote ((s +:+ String double_quote "") +:+ rest)).
  now rewrite append_assoc.
Qed.

Lemma scanValue_literal fuel depth v rest :
  all_bytes literal_byte v = true ->
  scanValue (S fuel) depth (literal v +:+ rest) = Scanned (JString v) rest.
Proof.
  intros Hv. rewrite literal_append.
  change (scanValue (S fuel) depth
            (String double_quote (v +:+ String double_quote rest)))
    with (scan_map JString (scanQuoted (v +:+ String double_quote rest))).
  now rewrite scanQuoted_literal.
Qed.

(** An object, from its opening brace to its first key. *)
Lemma scanValue_object fuel depth key rest :
  (depth <? maxNestingDepth)%N = true ->
  scanValue (S fuel) depth ("{" +:+ literal key +:+ rest)
  = scan_map JObject (scanMembers fuel (depth + 1) (literal key +:+ rest)).
Proof.
  intros Hdepth. rewrite literal_append.
  change (scanValue (S fuel) depth ("{" +:+ String double_quote ?x))
    with (if (maxNestingDepth <=? depth)%N then Invalid
          else scan_map JObject
                 (scanMembers fuel (depth + 1) (String double_quote x))).
  apply N.ltb_lt in Hdepth.
  now destruct (N.leb_spec maxNestingDepth depth); [lia|].
Qed.

(** A member, up to what follows its value. *)
Lemma scanMembers_member fuel depth key value :
  all_bytes literal_byte key = true ->
  scanMembers (S fuel) depth (literal key +:+ ":" +:+ value)
  = match scanValue fuel depth value with
    | Truncated => Truncated
    | Invalid => Invalid
    | Scanned v rest =>
        match skipSpace rest with
        | EmptyString => Truncated
        | String c after =>
            if Ascii.eqb c "}" then Scanned [(key, v)] after
            else if Ascii.eqb c "," then
              scan_map (cons (key, v)) (scanMembers fuel depth after)
            else Invalid
        end
    end.
Proof.
  intros Hk. rewrite literal_append.
  change (scanMembers (S fuel) depth (String double_quote ?x))
    with (match scanQuoted x with
          | Truncated => Truncated
          | Invalid => Invalid
          | Scanned key s2 =>
              match skipSpace s2 with
              | EmptyString => Truncated
              | String colon s3 =>
                  if negb (Ascii.eqb colon ":") then Invalid
                  else
                    match scanValue fuel depth s3 with
                    | Truncated => Truncated
                    | Invalid => Invalid
                    | Scanned v s4 =>
                        match skipSpace s4 with
                        | EmptyString => Truncated
                        | String c s5 =>
                            if Ascii.eqb c "}" then Scanned [(key, v)] s5
                            else if Ascii.eqb c "," then
                              scan_map (cons (key, v))
                                       (scanMembers fuel depth s5)
                            else Invalid
                        end
                    end
              end
          end).
  now rewrite scanQuoted_literal.
Qed.

(** A member whose value is a literal, followed by another member or by the
    closing brace. *)
Lemma scanMembers_more fuel depth key v rest :
  all_bytes literal_byte key = true -> all_bytes literal_byte v = true ->
  scanMembers (S (S fuel)) depth
    (literal key +:+ ":" +:+ literal v +:+ "," +:+ rest)
  = scan_map (cons (key, JString v)) (scanMembers (S fuel) depth rest).
Proof.
  intros Hk Hv. now rewrite scanMembers_member, scanValue_literal.
Qed.

Lemma scanMembers_last fuel depth key v rest :
  all_bytes literal_byte key = true -> all_bytes literal_byte v = true ->
  scanMembers (S (S fuel)) depth
    (literal key +:+ ":" +:+ literal v +:+ "}" +:+ rest)
  = Scanned [(key, JString v)] rest.
Proof.
  intros Hk Hv. now rewrite scanMembers_member, scanValue_literal.
Qed.

(** The scanner reads the text of an envelope as the object it writes. *)
Lemma scanValue_envelope fuel e :
  literal_data e = true ->
  scanValue (9 + fuel) 0 (envelope_text e) = Scanned (envelope_json e) "".
Proof.
  unfold literal_data. intros H.
  apply andb_prop in H as [H Hd]. apply andb_prop in H as [H Ho].
  apply andb_prop in H as [H Hp]. apply andb_prop in H as [Hv Ha].
  unfold envelope_text.
  change (9 + fuel) with (S (S (S (S (S (S (S (S (S fuel))))))))).
  rewrite scanValue_object by reflexivity.
  change (":{" +:+ ?x) with (":" +:+ "{" +:+ x).
  rewrite scanMembers_member by reflexivity.
  rewrite scanValue_object by reflexivity.
  change (literal (wire.DBDriver e) +:+ "}}")
    with (literal (wire.DBDriver e) +:+ "}" +:+ "}").
  rewrite 4 scanMembers_more by (assumption || reflexivity).
  rewrite scanMembers_last by (assumption || reflexivity).
  reflexivity.
Qed.

Lemma envelope_text_long e : 4 <= String.length (envelope_text e).
Proof.
  unfold envelope_text. rewrite (literal_append "data").
  change ("{" +:+ String double_quote ("data" +:+ ?x))
    with (String "{" (String double_quote (String "d" (String "a"
            (String "t" (String "a" x)))))).
  simpl. lia.
Qed.

Lemma readValue_envelope e :
  literal_data e = true -> readValue (envelope_text e) = Ok (envelope_json e).
Proof.
  intros H. unfold readValue.
  pose proof (envelope_text_long e) as Hlong.
  replace (2 * String.length (envelope_text e) + 2)
    with (9 + (2 * String.length (envelope_text e) - 7)) by lia.
  now rewrite scanValue_envelope.
Qed.

Lemma as_envelope_json e : as_envelope (envelope_json e) = Some e.
Proof. now destruct e. Qed.

(** X12.  Written out and read back: when the body is the compact JSON
    text of an envelope whose five values are printable ASCII without
    quote or backslash, [Decode] returns no error and [Read] stores the
    five values as they were written. *)
Theorem Read_recovers_written_envelope {W}
    (serve : Client W -> Request -> W -> result Response * W)
    (c : Client W) req resp httpResp e w w' :
  diag.HasError (read_diags req resp) = false ->
  serve c about_request w = (Ok httpResp, w') ->
  literal_data e = true ->
  RespBody httpResp = envelope_text e ->
  snd (Decode wire.into_respData (RespBody httpResp) wire.zero) = None
  /\ run serve (Read (mkSysInfoDataSource (Some c)) req resp) w
     = (Returned (mkReadResponse (Some (record_of e)) (read_diags req resp)),
        w').
Proof.
  intros H HDo He Hbody.
  rewrite (Read_stores_after_any_body serve c req resp httpResp w w' H HDo).
  rewrite Hbody.
  rewrite (Decode_envelope _ _ e (readValue_envelope e He) (as_envelope_json e)).
  split; reflexivity.
Qed.

Lemma Read_recovers_written_envelope_witness :
  let e := wire.mkData "6.1.0" "2.0.0" "8.2 (cli)" "Linux" "mysql" in
  let network := example.service (envelope_text e) in
  let c := example.client network "http://firefly.local:8000" "tok" in
  snd (Decode wire.into_respData (envelope_text e) wire.zero) = None
  /\ run (Client_Do network)
         (Read (mkSysInfoDataSource (Some c))
               example.read_request example.read_response) []
     = (Returned (mkReadResponse (Some (record_of e)) []),
        [addressed_request "http" "firefly.local" ":8000" "tok"]).
Proof.
  intros e network c.
  apply (Read_recovers_written_envelope (Client_Do network) c
           example.read_request example.read_response
           (mkResponse 200 ∅ (envelope_text e)) e []
           [addressed_request "http" "firefly.local" ":8000" "tok"]);
    reflexivity.
Defined.

(** ** What follows the first value of a body *)

Section trailing.

Variable tail : string.

Lemma append_cons c s t : String c s +:+ t = String c (s +:+ t).
Proof. reflexivity. Qed.

Lemma scan_map_Scanned {A B : Type} (f : A -> B) r b rest :
  scan_map f r = Scanned b rest -> exists a, r = Scanned a rest /\ b = f a.
Proof. destruct r; simpl; intros H; simplify_eq; eauto. Qed.

Lemma skipSpace_app s c s' :
  skipSpace s = String c s' -> skipSpace (s +:+ tail) = String c (s' +:+ tail).
Proof.
  induction s as [|a s IH]; [discriminate|].
  rewrite append_cons. cbn [skipSpace]. destruct (isSpace a); [exact IH|].
  intros H. now simplify_eq.
Qed.

Lemma scanLiteral_app expect s rest :
  scanLiteral expect s = Scanned () rest ->
  scanLiteral expect (s +:+ tail) = Scanned () (rest +:+ tail).
Proof.
  revert s. induction expect as [|e expect IH]; intros s.
  - simpl. intros H. now simplify_eq.
  - destruct s as [|c s]; [discriminate|]. rewrite append_cons.
    cbn [scanLiteral]. destruct (Ascii.eqb c e); [apply IH|discriminate].
Qed.

Lemma scanNumber_app st s l rest :
  scanNumber st s = Scanned l rest -> rest <> "" ->
  scanNumber st (s +:+ tail) = Scanned l (rest +:+ tail).
Proof.
  revert st l. induction s as [|c s IH]; intros st l.
  - simpl. destruct (num_complete st); intros H; now simplify_eq.
  - rewrite append_cons. cbn [scanNumber].
    destruct (num_step st c) as [st'|].
    + intros H Hrest. apply scan_map_Scanned in H as (l' & H & ->).
      now rewrite (IH _ _ H Hrest).
    + destruct (num_complete st); intros H; now simplify_eq.
Qed.

Lemma scanHex_app n s hex rest :
  scanHex n s = Scanned hex rest ->
  scanHex n (s +:+ tail) = Scanned hex (rest +:+ tail).
Proof.
  revert s hex. induction n as [|n IH]; intros s hex.
  - simpl. intros H. now simplify_eq.
  - destruct s as [|h s]; [discriminate|]. rewrite append_cons.
    cbn [scanHex]. destruct (net_url.ishex h); [|discriminate].
    intros H. apply scan_map_Scanned in H as (hex' & H & ->).
    now rewrite (IH _ _ H).
Qed.

Lemma scanString_app fuel fuel' s raw rest :
  fuel <= fuel' -> scanString fuel s = Scanned raw rest ->
  scanString fuel' (s +:+ tail) = Scanned raw (rest +:+ tail).
Proof.
  revert fuel' s raw. induction fuel as [|fuel IH]; intros fuel' s raw Hfuel;
    [discriminate|].
  destruct fuel' as [|fuel']; [lia|]. apply le_S_n in Hfuel.
  destruct s as [|c s]; [discriminate|]. rewrite append_cons.
  cbn [scanString].
  destruct (Ascii.eqb c double_quote); [intros H; now simplify_eq|].
  destruct (Ascii.eqb c back_slash).
  - destruct s as [|e s]; [discriminate|]. rewrite append_cons.
    destruct (one_of "bfnrt/" e || Ascii.eqb e back_slash
              || Ascii.eqb e double_quote).
    + intros H. apply scan_map_Scanned in H as (t & H & ->).
      now rewrite (IH _ _ _ Hfuel H).
    + destruct (Ascii.eqb e "u"); [|discriminate].
      destruct (scanHex 4 s) as [hex after| |] eqn:Hhex; try discriminate.
      rewrite (scanHex_app _ _ _ _ Hhex).
      intros H. apply scan_map_Scanned in H as (t & H & ->).
      now rewrite (IH _ _ _ Hfuel H).
  - destruct (code c <? 32)%N; [discriminate|].
    intros H. apply scan_map_Scanned in H as (t & H & ->).
    now rewrite (IH _ _ _ Hfuel H).
Qed.

Lemma scanQuoted_app s t rest :
  scanQuoted s = Scanned t rest ->
  scanQuoted (s +:+ tail) = Scanned t (rest +:+ tail).
Proof.
  unfold scanQuoted. intros H.
  apply scan_map_Scanned in H as (raw & H & ->).
  rewrite (scanString_app (S (String.length s)) _ s raw rest); [reflexivity| |exact H].
  rewrite length_append. lia.
Qed.

Lemma closed_number l rest : rest <> "" -> open_number (JNumber l) rest = false.
Proof. intros H. now apply String.eqb_neq. Qed.

Lemma before_delimiter rest c after :
  skipSpace rest = String c after -> rest <> "".
Proof. now intros H ->. Qed.

Lemma scan_app fuel :
  (forall fuel' depth s j rest,
     fuel <= fuel' -> scanValue fuel depth s = Scanned j rest ->
     open_number j rest = false ->
     scanValue fuel' depth (s +:+ tail) = Scanned j (rest +:+ tail))
  /\ (forall fuel' depth s members rest,
        fuel <= fuel' -> scanMembers fuel depth s = Scanned members rest ->
        scanMembers fuel' depth (s +:+ tail) = Scanned members (rest +:+ tail))
  /\ (forall fuel' depth s elements rest,
        fuel <= fuel' -> scanElements fuel depth s = Scanned elements rest ->
        scanElements fuel' depth (s +:+ tail) = Scanned elements (rest +:+ tail)).
Proof.
  induction fuel as [|fuel (IHv & IHm & IHe)];
    [repeat split; intros; discriminate|].
  assert (Hnested : forall fuel' depth s j rest c after,
            fuel <= fuel' -> scanValue fuel depth s = Scanned j rest ->
            skipSpace rest = String c after ->
            scanValue fuel' depth (s +:+ tail) = Scanned j (rest +:+ tail)).
  { intros fuel' depth s j rest c after Hfuel H Hskip.
    apply (IHv _ _ _ _ _ Hfuel H).
    destruct j; try reflexivity.
    apply closed_number. now apply before_delimiter in Hskip. }
  repeat split.
  - intros fuel' depth s j rest Hfuel.
    destruct fuel' as [|fuel']; [lia|]. apply le_S_n in Hfuel.
    cbn [scanValue].
    destruct (skipSpace s) as [|c s'] eqn:Hskip; [discriminate|].
    rewrite (skipSpace_app _ _ _ Hskip).
    destruct (Ascii.eqb c "{").
    { destruct (maxNestingDepth <=? depth)%N; [discriminate|].
      destruct (skipSpace s') as [|c1 s1] eqn:Hskip1; [discriminate|].
      rewrite (skipSpace_app _ _ _ Hskip1).
      destruct (Ascii.eqb c1 "}"); [intros H; now simplify_eq|].
      intros H _. apply scan_map_Scanned in H as (members & H & ->).
      rewrite <- append_cons. now rewrite (IHm _ _ _ _ _ Hfuel H). }
    destruct (Ascii.eqb c "[").
    { destruct (maxNestingDepth <=? depth)%N; [discriminate|].
      destruct (skipSpace s') as [|c1 s1] eqn:Hskip1; [discriminate|].
      rewrite (skipSpace_app _ _ _ Hskip1).
      destruct (Ascii.eqb c1 "]"); [intros H; now simplify_eq|].
      intros H _. apply scan_map_Scanned in H as (elements & H & ->).
      rewrite <- append_cons. now rewrite (IHe _ _ _ _ _ Hfuel H). }
    destruct (Ascii.eqb c double_quote).
    { intros H _. apply scan_map_Scanned in H as (t & H & ->).
      now rewrite (scanQuoted_app _ _ _ H). }
    assert (Hnumber : forall st,
      scan_map (fun l => JNumber (String c l)) (scanNumber st s')
      = Scanned j rest -> open_number j rest = false ->
      scan_map (fun l => JNumber (String c l)) (scanNumber st (s' +:+ tail))
      = Scanned j (rest +:+ tail)).
    { intros st H Hopen. apply scan_map_Scanned in H as (l & H & ->).
      rewrite (scanNumber_app _ _ _ _ H); [reflexivity|].
      now apply String.eqb_neq. }
    destruct (Ascii.eqb c "-"); [apply Hnumber|].
    destruct (Ascii.eqb c "0"); [apply Hnumber|].
    destruct (between "1" "9" c); [apply Hnumber|].
    assert (Hliteral : forall (v : json) expect,
      scan_map (fun _ => v) (scanLiteral expect s') = Scanned j rest ->
      open_number j rest = false ->
      scan_map (fun _ => v) (scanLiteral expect (s' +:+ tail))
      = Scanned j (rest +:+ tail)).
    { intros v expect H _. apply scan_map_Scanned in H as ([] & H & ->).
      now rewrite (scanLiteral_app _ _ _ H). }
    destruct (Ascii.eqb c "t"); [apply Hliteral|].
    destruct (Ascii.eqb c "f"); [apply Hliteral|].
    destruct (Ascii.eqb c "n"); [apply Hliteral|].
    discriminate.
  - intros fuel' depth s members rest Hfuel.
    destruct fuel' as [|fuel']; [lia|]. apply le_S_n in Hfuel.
    cbn [scanMembers].
    destruct (skipSpace s) as [|q s1] eqn:Hskip; [discriminate|].
    rewrite (skipSpace_app _ _ _ Hskip).
    destruct (negb (Ascii.eqb q double_quote)); [discriminate|].
    destruct (scanQuoted s1) as [key s2| |] eqn:Hkey; try discriminate.
    rewrite (scanQuoted_app _ _ _ Hkey).
    destruct (skipSpace s2) as [|colon s3] eqn:Hskip2; [discriminate|].
    rewrite (skipSpace_app _ _ _ Hskip2).
    destruct (negb (Ascii.eqb colon ":")); [discriminate|].
    destruct (scanValue fuel depth s3) as [v s4| |] eqn:Hv; try discriminate.
    destruct (skipSpace s4) as [|c s5] eqn:Hskip4; [discriminate|].
    rewrite (Hnested _ _ _ _ _ _ _ Hfuel Hv Hskip4).
    rewrite (skipSpace_app _ _ _ Hskip4).
    destruct (Ascii.eqb c "}"); [intros H; now simplify_eq|].
    destruct (Ascii.eqb c ","); [|discriminate].
    intros H. apply scan_map_Scanned in H as (more & H & ->).
    now rewrite (IHm _ _ _ _ _ Hfuel H).
  - intros fuel' depth s elements rest Hfuel.
    destruct fuel' as [|fuel']; [lia|]. apply le_S_n in Hfuel.
    cbn [scanElements].
    destruct (scanValue fuel depth s) as [v s1| |] eqn:Hv; try discriminate.
    destruct (skipSpace s1) as [|c s2] eqn:Hskip1; [discriminate|].
    rewrite (Hnested _ _ _ _ _ _ _ Hfuel Hv Hskip1).
    rewrite (skipSpace_app _ _ _ Hskip1).
    destruct (Ascii.eqb c "]"); [intros H; now simplify_eq|].
    destruct (Ascii.eqb c ","); [|discriminate].
    intros H. apply scan_map_Scanned in H as (more & H & ->).
    now rewrite (IHe _ _ _ _ _ Hfuel H).
Qed.

(** The first value of a body, unless it is a number that ends with the
    body, is the first value of every body that begins with it. *)
Lemma readValue_app body j :
  readValue body = Ok j ->
  (forall l, j <> JNumber l) ->
  readValue (body +:+ tail) = Ok j.
Proof.
  unfold readValue. intros H Hj.
  destruct (scanValue (2 * String.length body + 2) 0 body) as [j' rest| |]
    eqn:Hscan.
  - simplify_eq.
    assert (Hfuel : 2 * String.length body + 2
                    <= 2 * String.length (body +:+ tail) + 2)
      by (rewrite length_append; lia).
    rewrite (proj1 (scan_app _) _ _ _ _ _ Hfuel Hscan); [reflexivity|].
    destruct j as [| |l| | |]; try reflexivity. now destruct (Hj l).
  - now destruct (skipSpace body =? "").
  - discriminate.
Qed.

End trailing.

(** X13.  [Read] stops at the first JSON value of the body: what follows
    the value is not looked at, be it well-formed or not.  (A number that
    ends with the body is the one value that more bytes could continue.) *)
Theorem Read_stops_at_the_first_value {W}
    (serve : Client W -> Request -> W -> result Response * W)
    (d : SysInfoDataSource (W := W)) c req resp r1 r2 j tail w1 w1' w2 w2' :
  client d = Some c ->
  serve c about_request w1 = (Ok r1, w1') ->
  serve c about_request w2 = (Ok r2, w2') ->
  readValue (RespBody r1) = Ok j ->
  (forall l, j <> JNumber l) ->
  RespBody r2 = RespBody r1 +:+ tail ->
  fst (run serve (Read d req resp) w1) = fst (run serve (Read d req resp) w2).
Proof.
  intros Hd H1 H2 Hj Hnumber Hbody.
  destruct (diag.HasError (read_diags req resp)) eqn:H.
  - now rewrite Read_config_error.
  - destruct (Read_fetches d c req resp H Hd) as (k & -> & _ & Hk).
    cbn [run]. rewrite H1, H2, !Hk, Hbody. unfold Decode.
    rewrite (readValue_app tail _ _ Hj Hnumber), Hj. reflexivity.
Qed.

Lemma Read_stops_at_the_first_value_witness :
  let serve : Client example.wire_log -> Request -> example.wire_log ->
              result Response * example.wire_log :=
    fun _ r w =>
      (Ok (mkResponse 200 ∅
             (match w with
              | [] => example.about_body
              | _ => example.about_body +:+ "}<html>"
              end)),
       (w ++ [r])%list) in
  let d := mkSysInfoDataSource
             (Some (example.client example.refused
                                   "http://firefly.local:8000" "tok")) in
  fst (run serve (Read d example.read_request example.read_response) [])
  = fst (run serve (Read d example.read_request example.read_response)
             [about_request]).
Proof.
  intros serve d.
  eapply (Read_stops_at_the_first_value serve d
           (example.client example.refused "http://firefly.local:8000" "tok")
           example.read_request example.read_response
           (mkResponse 200 ∅ example.about_body)
           (mkResponse 200 ∅ (example.about_body +:+ "}<html>"))
           _ "}<html>"
           [] [about_request] [about_request] [about_request; about_request]);
    try reflexivity.
  discriminate.
Defined.

(** ** The validator of the endpoint and [url.Parse] *)

Section validated.

Import go_strings net_url.

Lemma HasPrefix_split p s :
  HasPrefix s p = true -> s = p +:+ slice_from (String.length p) s.
Proof.
  unfold HasPrefix. revert s.
  induction p as [|c p IH]; intros s H; [now destruct s|].
  destruct s as [|d s]; [discriminate|]. simpl in H.
  destruct (ascii_dec c d) as [->|]; [|discriminate].
  change (String d p +:+ ?x) with (String d (p +:+ x)).
  simpl. now rewrite <- IH.
Qed.

(** Whatever else [url.Parse] finds, the scheme of its result is the one
    that [getScheme] reads off the text before the fragment, in lower
    case. *)
Lemma parse_Scheme raw u :
  parse raw false = Ok u ->
  exists sch rest, getScheme raw = Ok (sch, rest) /\ Scheme u = ToLower sch.
Proof.
  unfold parse. intros H.
  destruct (stringContainsCTLByte raw); [discriminate|].
  rewrite andb_false_r in H.
  destruct (raw =? "*") eqn:Hstar.
  { apply String.eqb_eq in Hstar as ->. injection H as <-.
    now exists "", "*". }
  destruct (getScheme raw) as [[sch rest]|]; [|discriminate].
  exists sch, rest. split; [reflexivity|].
  repeat case_match; simplify_eq; reflexivity.
Qed.

Lemma Parse_Scheme raw u :
  Parse raw = Ok u ->
  exists sch rest,
    getScheme (fst (fst (Cut raw "#"))) = Ok (sch, rest)
    /\ Scheme u = ToLower sch.
Proof.
  unfold Parse. intros H.
  destruct (Cut raw "#") as [[before frag] found]. simpl.
  destruct (parse before false) as [url|] eqn:Hparse; [|discriminate].
  apply parse_Scheme in Hparse as (sch & rest & Hsch & Hurl).
  exists sch, rest. split; [assumption|].
  repeat case_match; simplify_eq; assumption.
Qed.

Lemma Cut_after_prefix p s c :
  all_bytes (other_than c) p = true ->
  Cut (p +:+ s) c
  = (p +:+ fst (fst (Cut s c)), snd (fst (Cut s c)), snd (Cut s c)).
Proof.
  induction p as [|d p IH]; intros Hp.
  - change (Cut s c = (fst (fst (Cut s c)), snd (fst (Cut s c)), snd (Cut s c))).
    now destruct (Cut s c) as [[] ?].
  - simpl in Hp. apply andb_prop in Hp as [Hd Hp].
    unfold other_than in Hd. apply negb_true_iff in Hd.
    change (String d p +:+ ?x) with (String d (p +:+ x)).
    simpl. now rewrite Hd, (IH Hp).
Qed.

(** An endpoint that the validator lets through has the scheme [http] or
    [https] for [url.Parse] too, if it parses. *)
Lemma validated_Scheme endpoint u :
  endpoint_pattern endpoint = true -> Parse endpoint = Ok u ->
  Scheme u = "http" \/ Scheme u = "https".
Proof.
  unfold endpoint_pattern. intros Hpat Hparse.
  apply Parse_Scheme in Hparse as (sch & rest & Hsch & ->).
  destruct (HasPrefix endpoint "http://") eqn:Hhttp.
  - apply HasPrefix_split in Hhttp. rewrite Hhttp in Hsch.
    rewrite Cut_after_prefix in Hsch by reflexivity.
    cbn [fst] in Hsch. injection Hsch as <- _. now left.
  - destruct (HasPrefix endpoint "https://") eqn:Hhttps; [|discriminate].
    apply HasPrefix_split in Hhttps. rewrite Hhttps in Hsch.
    rewrite Cut_after_prefix in Hsch by reflexivity.
    cbn [fst] in Hsch. injection Hsch as <- _. now right.
Qed.

(** The validator refuses a colon that no digit follows, which
    [url.Parse] takes for an empty port. *)
Lemma empty_port_refused scheme host :
  valid_base scheme host ":" = true ->
  endpoint_pattern (base_url scheme host ":") = false.
Proof.
  unfold valid_base. intros H.
  apply andb_prop in H as [H _]. apply andb_prop in H as [H Hh].
  apply andb_prop in H as [Hs _].
  assert (Hcolon : all_bytes (other_than ":") host = true).
  { revert Hh. apply all_bytes_impl. intros c Hc.
    apply reg_name_byte_authority in Hc.
    apply andb_prop in Hc as [Hc _]. now apply andb_prop in Hc as [_ Hc]. }
  assert (Hrest :
    (let '(h, p, colon) := Cut (host +:+ ":") ":" in
     negb (h =? "") && all_bytes (fun c => negb (Ascii.eqb c "/")) h
     && (if colon then negb (p =? "") && all_bytes is_digit p else true))
    = false).
  { rewrite (Cut_at _ _ _ Hcolon). apply andb_false_r. }
  unfold base_url, endpoint_pattern.
  apply orb_prop in Hs as [Hs|Hs]; apply String.eqb_eq in Hs; subst scheme.
  - change ("http" +:+ "://" +:+ host +:+ ":")
      with (String "h" (String "t" (String "t" (String "p" (String ":"
             (String "/" (String "/" (host +:+ ":")))))))).
    rewrite !HasPrefix_cons, HasPrefix_nil. exact Hrest.
  - change ("https" +:+ "://" +:+ host +:+ ":")
      with (String "h" (String "t" (String "t" (String "p" (String "s"
             (String ":" (String "/" (String "/" (host +:+ ":"))))))))).
    change (HasPrefix _ "http://") with false.
    rewrite !HasPrefix_cons, HasPrefix_nil. exact Hrest.
Qed.

End validated.

(** X14.  Under an endpoint that the schema's validator lets through, the
    transport either returns an error without calling the transport under
    it, or passes on a request whose scheme is [http] or [https]. *)
Theorem validated_endpoint_goes_over_http {W} (t : fireflyTransport (W := W))
    r w :
  endpoint_pattern (baseURL t) = true ->
  (exists e, RoundTrip t r w = (Err e, r, w))
  \/ (exists r', RoundTrip t r w = rt t r' w
                 /\ (Scheme (URL r') = "http" \/ Scheme (URL r') = "https")).
Proof.
  intros Hpat. destruct (net_url.Parse (baseURL t)) as [parsed|e] eqn:Hparse.
  - right. rewrite (RoundTrip_parsed t parsed r w Hparse).
    eexists. split; [reflexivity|].
    simpl. now apply (validated_Scheme (baseURL t)).
  - left. exists e. now apply RoundTrip_unparsed.
Qed.

Lemma validated_endpoint_goes_over_http_witness :
  let t := mkFireflyTransport "https://firefly.local?x=1" "tok" example.refused in
  (exists e, RoundTrip t about_request [] = (Err e, about_request, []))
  \/ (exists r', RoundTrip t about_request [] = rt t r' []
                 /\ (Scheme (URL r') = "http" \/ Scheme (URL r') = "https")).
Proof.
  apply (validated_endpoint_goes_over_http
           (mkFireflyTransport "https://firefly.local?x=1" "tok" example.refused)
           about_request []).
  reflexivity.
Defined.

(** X15.  [url.Parse] splits every base URL [scheme://host[:port]] into
    its scheme and host; the schema's validator lets all of them through
    but those whose port is a colon with no digit. *)
Theorem validator_refuses_empty_port_only scheme host port :
  valid_base scheme host port = true ->
  net_url.Parse (base_url scheme host port)
  = Ok (mkURL scheme "" None (host +:+ port) "" "" false false "" "" "")
  /\ endpoint_pattern (base_url scheme host port) = negb (port =? ":").
Proof.
  intros H. split; [now apply Parse_base|].
  destruct (port =? ":") eqn:Hport.
  - apply String.eqb_eq in Hport as ->. now apply empty_port_refused.
  - apply String.eqb_neq in Hport. now apply valid_base_matches_pattern.
Qed.

Lemma validator_refuses_empty_port_only_witness :
  net_url.Parse (base_url "http" "firefly.local" ":")
  = Ok (mkURL "http" "" None "firefly.local:" "" "" false false "" "" "")
  /\ endpoint_pattern (base_url "http" "firefly.local" ":") = false.
Proof.
  apply (validator_refuses_empty_port_only "http" "firefly.local" ":").
  reflexivity.
Defined.

(** ** The shared client *)

(** [Configure] with a configuration free of errors, from an empty
    response. *)
Lemma shared_Configure {W} (DefaultTransport : RoundTripper W) DefaultClient
    (config : Config FireflyProviderModel) (h : shared.clients W) :
  diag.HasError (Get_diags config) = false ->
  is_Some (h !! DefaultClient) ->
  shared.FireflyProvider_Configure DefaultTransport DefaultClient
    (mkProviderConfigureRequest config)
    (shared.mkProviderConfigureResponse [] None None) h
  = (Returned (shared.mkProviderConfigureResponse
                 (diag.Append [] (Get_diags config))
                 (Some (shared.any_Client (Some DefaultClient)))
                 (Some (shared.any_Client (Some DefaultClient)))),
     <[ DefaultClient :=
          mkClient (Some (RoundTrip (mkFireflyTransport
            (ValueString (Endpoint (Get_value config)))
            (ValueString (AccessToken (Get_value config)))
            DefaultTransport))) ]> h).
Proof.
  intros Hconfig [c0 Hc0]. unfold shared.FireflyProvider_Configure.
  cbn [provider_Config shared.provider_Diagnostics].
  now rewrite HasError_Append, Hconfig, Hc0.
Qed.

(** X16.  The client that [Configure] hands out is the default client of
    the process, changed in place.  A data source configured after one
    [Configure] sends through that call's transport; once [Configure] has
    run again in the process, with another endpoint or token, the same
    data source sends through the transport of the later call. *)
Theorem later_Configure_redirects_the_data_source {W}
    (DefaultTransport : RoundTripper W) DefaultClient
    (first later : Config FireflyProviderModel) (h : shared.clients W)
    req resp :
  is_Some (h !! DefaultClient) ->
  diag.HasError (Get_diags first) = false ->
  diag.HasError (Get_diags later) = false ->
  exists resp1 h1 resp2 h2,
    shared.FireflyProvider_Configure DefaultTransport DefaultClient
      (mkProviderConfigureRequest first)
      (shared.mkProviderConfigureResponse [] None None) h
    = (Returned resp1, h1)
    /\ shared.FireflyProvider_Configure DefaultTransport DefaultClient
         (mkProviderConfigureRequest later)
         (shared.mkProviderConfigureResponse [] None None) h1
       = (Returned resp2, h2)
    /\ let d := fst (shared.SysInfoDataSource_Configure
                       shared.NewSysInfoDataSource
                       (shared.mkConfigureRequest (shared.DataSourceData resp1))
                       (mkConfigureResponse [])) in
       shared.Read h1 d req resp
       = Read (configured DefaultTransport (Endpoint (Get_value first))
                          (AccessToken (Get_value first))) req resp
       /\ shared.Read h2 d req resp
          = Read (configured DefaultTransport (Endpoint (Get_value later))
                             (AccessToken (Get_value later))) req resp.
Proof.
  intros Hh Hfirst Hlater.
  do 4 eexists. split; [now apply shared_Configure|].
  split.
  - apply shared_Configure; [assumption|].
    rewrite lookup_insert_eq. now eexists.
  - unfold shared.Read, shared.pointee, shared.SysInfoDataSource_Configure.
    cbn [shared.DataSourceData shared.ProviderData fst shared.client].
    rewrite lookup_insert_eq. rewrite lookup_insert_eq.
    split; reflexivity.
Qed.

Lemma later_Configure_redirects_the_data_source_witness :
  let first := mkConfig (mkFireflyProviderModel
                           (StringValue "http://one.local") (StringValue "one"))
                        [] in
  let later := mkConfig (mkFireflyProviderModel
                           (StringValue "http://two.local") (StringValue "two"))
                        [] in
  let h : shared.clients example.wire_log := {[ 0 := mkClient None ]} in
  exists resp1 h1 resp2 h2,
    shared.FireflyProvider_Configure example.refused 0
      (mkProviderConfigureRequest first)
      (shared.mkProviderConfigureResponse [] None None) h
    = (Returned resp1, h1)
    /\ shared.FireflyProvider_Configure example.refused 0
         (mkProviderConfigureRequest later)
         (shared.mkProviderConfigureResponse [] None None) h1
       = (Returned resp2, h2)
    /\ let d := fst (shared.SysInfoDataSource_Configure
                       shared.NewSysInfoDataSource
                       (shared.mkConfigureRequest (shared.DataSourceData resp1))
                       (mkConfigureResponse [])) in
       shared.Read h1 d example.read_request example.read_response
       = Read (configured example.refused (StringValue "http://one.local")
                          (StringValue "one"))
              example.read_request example.read_response
       /\ shared.Read h2 d example.read_request example.read_response
          = Read (configured example.refused (StringValue "http://two.local")
                             (StringValue "two"))
                 example.read_request example.read_response.
Proof.
  intros first later h.
  apply (later_Configure_redirects_the_data_source example.refused 0
           first later h example.read_request example.read_response).
  - exists (mkClient None). reflexivity.
  - reflexivity.
  - reflexivity.
Defined.
